(** * split_data_by_month.py: monthly partition of two CSV tables

    A shallow embedding of the script [split_data_by_month.py] and of the
    pandas, pathlib and builtin operations it calls, followed by the
    properties of the monthly partition it writes.

    The script is a straight line of library calls; every call is embedded
    under the name it has in the source ([read_csv], [to_datetime],
    [mkdir], [unique], [sorted], [strftime], [to_csv], [print]).  Errors
    are values of [error]; the file system and the standard output are the
    state threaded through the run. *)

From Stdlib Require Import ZArith String Ascii.
From stdpp Require Import base option list strings gmap pretty sorting.

Local Open Scope Z_scope.

(** ** Calendar values *)

(** A pandas [Timestamp], by its calendar fields.  [ts_nanosecond] is the
    whole sub-second part, in nanoseconds. *)
Record Timestamp := mkTimestamp {
  ts_year : Z; ts_month : Z; ts_day : Z;
  ts_hour : Z; ts_minute : Z; ts_second : Z; ts_nanosecond : Z }.

(** A monthly [Period] is its ordinal, the number of months since 1970-01,
    which is how pandas stores and compares it. *)
Definition to_period_M (t : Timestamp) : Z :=
  (ts_year t - 1970) * 12 + (ts_month t - 1).
Definition period_year (p : Z) : Z := 1970 + p `div` 12.
Definition period_month (p : Z) : Z := p `mod` 12 + 1.

(** [f"{n:0{width}d}"] for a non-negative [n]. *)
Fixpoint zeros (k : nat) : string :=
  match k with O => "" | S k' => String "0" (zeros k') end.
Definition fmt_0d (width : nat) (n : Z) : string :=
  let s := pretty n in zeros (width - String.length s) +:+ s.

(** [Period.strftime('%Y-%m')]. *)
Definition strftime_Ym (p : Z) : string :=
  pretty (period_year p) +:+ "-" +:+ fmt_0d 2 (period_month p).

(** ** Tables *)

(** A cell of a [DataFrame]: a missing value, a text, a timestamp or the
    missing timestamp.  Cells of numeric columns are carried as their text:
    the dtype inference of [read_csv] on numbers, and what it does to their
    text when they are written back, is outside this embedding. *)
Inductive value :=
  | NaN
  | Str (s : string)
  | Datetime (t : Timestamp)
  | NaT.

Record DataFrame := mkDataFrame {
  columns : list string;
  rows : list (list value) }.

(** The content of a delimited text file, tokenized: the header line and
    the records, each a list of fields. *)
Record csv := mkCsv {
  csv_header : list string;
  csv_records : list (list string) }.

Inductive node :=
  | File (content : csv)
  | Dir.

Inductive error :=
  | FileNotFoundError (path : string)
  | IsADirectoryError (path : string)
  | FileExistsError (path : string)
  | ParserError (path : string)
  | KeyError (key : string)
  | DateParseError (position : nat) (raw : string)
  | ValueError (msg : string).

(** ** Results and the monad of the run *)

Inductive result (A : Type) :=
  | Ok (a : A)
  | Raise (e : error).
Arguments Ok {A} a.
Arguments Raise {A} e.

Global Instance result_ret : MRet result := @Ok.
Global Instance result_bind : MBind result := λ A B f m,
  match m with Ok a => f a | Raise e => Raise e end.
Global Instance result_fmap : FMap result := λ A B f m,
  match m with Ok a => Ok (f a) | Raise e => Raise e end.

Record World := mkWorld {
  fs : gmap string node;
  stdout : list string }.

(** A computation reads and writes the world and may raise; the world at
    the point of the raise is kept. *)
Definition M (A : Type) : Type := World → result A * World.

Global Instance M_ret : MRet M := λ A a w, (Ok a, w).
Global Instance M_bind : MBind M := λ A B f m w,
  match m w with
  | (Ok a, w') => f a w'
  | (Raise e, w') => (Raise e, w')
  end.

Definition lift {A} (r : result A) : M A := λ w, (r, w).

Fixpoint for_each {A} (l : list A) (body : A → M ()) : M () :=
  match l with
  | [] => mret ()
  | x :: l' => body x;; for_each l' body
  end.

(** ** pandas: reading *)

(** The strings [read_csv] takes for a missing value (its default
    [na_values]). *)
Definition na_values : list string :=
  [""; "#N/A"; "#N/A N/A"; "#NA"; "-1.#IND"; "-1.#QNAN"; "-NaN"; "-nan";
   "1.#IND"; "1.#QNAN"; "<NA>"; "N/A"; "NA"; "NULL"; "NaN"; "None"; "n/a";
   "nan"; "null"].

Definition read_value (s : string) : value :=
  if bool_decide (s ∈ na_values) then NaN else Str s.

(** The files that load are the well-formed ones: no column name twice in
    the header, and as many fields in every record as in the header.  What
    pandas makes of other files (it renames a repeated column, fills a
    short record with missing values, takes leading extra fields for an
    index) is left out: here such a file does not load. *)
Definition well_formed (c : csv) : bool :=
  bool_decide (NoDup (csv_header c))
  && forallb (λ r, Nat.eqb (length r) (length (csv_header c))) (csv_records c).

Definition parse_csv (path : string) (c : csv) : result DataFrame :=
  if well_formed c
  then Ok {| columns := csv_header c;
             rows := (λ r : list string, read_value <$> r) <$> csv_records c |}
  else Raise (ParserError path).

Definition read_csv (path : string) : M DataFrame := λ w,
  match fs w !! path with
  | None => (Raise (FileNotFoundError path), w)
  | Some Dir => (Raise (IsADirectoryError path), w)
  | Some (File c) => (parse_csv path c, w)
  end.

(** ** pandas: columns *)

Definition column_index (key : string) (df : DataFrame) : option nat :=
  fst <$> list_find (λ c, c = key) (columns df).

Definition cell (j : nat) (r : list value) : value := default NaN (r !! j).

(** [df[key]] *)
Definition getitem (key : string) (df : DataFrame) : result (list value) :=
  match column_index key df with
  | Some j => Ok (cell j <$> rows df)
  | None => Raise (KeyError key)
  end.

(** [df[key] = series] *)
Definition setitem (key : string) (series : list value) (df : DataFrame)
    : DataFrame :=
  match column_index key df with
  | Some j =>
      {| columns := columns df;
         rows := zip_with (λ r v, <[j := v]> r) (rows df) series |}
  | None =>
      {| columns := columns df ++ [key];
         rows := zip_with (λ r v, r ++ [v]) (rows df) series |}
  end.

(** [df[mask]], the rows at which the boolean series holds. *)
Fixpoint mask_rows {A} (l : list A) (mask : list bool) : list A :=
  match l, mask with
  | x :: l', b :: mask' =>
      if b then x :: mask_rows l' mask' else mask_rows l' mask'
  | _, _ => []
  end.

Definition boolean_index (df : DataFrame) (mask : list bool) : DataFrame :=
  {| columns := columns df; rows := mask_rows (rows df) mask |}.

(** ** pandas: dates and periods *)

Section to_datetime.
(** What [pd.to_datetime] makes of one text; [None] when it cannot
    read it as a date.  One reader serves every text of both columns: a
    format inferred for a whole column is not modelled. *)
Variable parse_cell : string → option Timestamp.

Definition convert (v : value) : option value :=
  match v with
  | NaN | NaT => Some NaT
  | Str s => Datetime <$> parse_cell s
  | Datetime t => Some (Datetime t)
  end.

Definition raw_text (v : value) : string :=
  match v with Str s => s | _ => "" end.

(** The column is converted whole or not at all: the first text that is
    no date raises, with its position and the text. *)
Fixpoint to_datetime_at (i : nat) (arg : list value) : result (list value) :=
  match arg with
  | [] => Ok []
  | v :: arg' =>
      match convert v with
      | Some d => ds ← to_datetime_at (S i) arg'; Ok (d :: ds)
      | None => Raise (DateParseError i (raw_text v))
      end
  end.

Definition to_datetime (arg : list value) : result (list value) :=
  to_datetime_at 0%nat arg.
End to_datetime.

(** [.dt.to_period('M')] on one cell; [None] is the missing period that
    [NaT] gives. *)
Definition dt_to_period (v : value) : option Z :=
  match v with
  | Datetime t => Some (to_period_M t)
  | _ => None
  end.

(** [a == b] and [a < b] on periods: both are false as soon as one side is
    [NaT]. *)
Definition period_eqb (a b : option Z) : bool :=
  match a, b with
  | Some x, Some y => bool_decide (x = y)
  | _, _ => false
  end.
Definition period_ltb (a b : option Z) : bool :=
  match a, b with
  | Some x, Some y => bool_decide (x < y)
  | _, _ => false
  end.

(** [.unique()]: the distinct values, in the order they first appear. *)
Fixpoint unique_from (seen l : list (option Z)) : list (option Z) :=
  match l with
  | [] => []
  | x :: l' =>
      if decide (x ∈ seen) then unique_from seen l'
      else x :: unique_from (x :: seen) l'
  end.
Definition unique (l : list (option Z)) : list (option Z) := unique_from [] l.

(** [sorted(...)]: a stable merge sort that only asks [<]; [a] stays ahead
    of [b] unless [b < a].  On periods that are all present this is the
    ascending order.  With a [NaT] among them no order is ascending, and
    where the [NaT] ends up depends on the sort; nothing below relies on
    it, the loop raising at the [NaT] wherever it stands. *)
Definition not_after (a b : option Z) : Prop := period_ltb b a = false.
Global Instance not_after_dec a b : Decision (not_after a b).
Proof. unfold not_after. apply _. Defined.
Definition sorted (l : list (option Z)) : list (option Z) :=
  merge_sort not_after l.

(** [period.strftime('%Y-%m')] *)
Definition strftime (period : option Z) : result string :=
  match period with
  | Some p => Ok (strftime_Ym p)
  | None => Raise (ValueError "NaTType does not support strftime")
  end.

(** ** pandas: writing *)

(** How [to_csv] writes a datetime column: dates alone when every
    timestamp of the column is at midnight, else date and time with the
    fraction the finest timestamp of the column needs. *)
Inductive date_style := DateOnly | Seconds | Millis | Micros | Nanos.

Definition timestamps (col : list value) : list Timestamp :=
  omap (λ v, match v with Datetime t => Some t | _ => None end) col.

Definition is_midnight (t : Timestamp) : bool :=
  bool_decide (ts_hour t = 0) && bool_decide (ts_minute t = 0)
  && bool_decide (ts_second t = 0) && bool_decide (ts_nanosecond t = 0).

Definition column_style (col : list value) : date_style :=
  let ts := timestamps col in
  if forallb is_midnight ts then DateOnly
  else if existsb (λ t, negb (bool_decide (ts_nanosecond t `mod` 1000 = 0))) ts
  then Nanos
  else if existsb (λ t, negb (bool_decide (ts_nanosecond t `mod` 1000000 = 0))) ts
  then Micros
  else if existsb (λ t, negb (bool_decide (ts_nanosecond t = 0))) ts
  then Millis
  else Seconds.

Definition format_date (t : Timestamp) : string :=
  pretty (ts_year t) +:+ "-" +:+ fmt_0d 2 (ts_month t)
  +:+ "-" +:+ fmt_0d 2 (ts_day t).

Definition format_time (t : Timestamp) : string :=
  fmt_0d 2 (ts_hour t) +:+ ":" +:+ fmt_0d 2 (ts_minute t)
  +:+ ":" +:+ fmt_0d 2 (ts_second t).

Definition format_timestamp (style : date_style) (t : Timestamp) : string :=
  match style with
  | DateOnly => format_date t
  | Seconds => format_date t +:+ " " +:+ format_time t
  | Millis =>
      format_date t +:+ " " +:+ format_time t
      +:+ "." +:+ fmt_0d 3 (ts_nanosecond t `div` 1000000)
  | Micros =>
      format_date t +:+ " " +:+ format_time t
      +:+ "." +:+ fmt_0d 6 (ts_nanosecond t `div` 1000)
  | Nanos =>
      format_date t +:+ " " +:+ format_time t
      +:+ "." +:+ fmt_0d 9 (ts_nanosecond t)
  end.

(** A missing value is written as the empty field. *)
Definition render_cell (style : date_style) (v : value) : string :=
  match v with
  | NaN | NaT => ""
  | Str s => s
  | Datetime t => format_timestamp style t
  end.

(** A row as a record of the file: each cell in the style of its column.
    The frame is written in one piece; pandas writes a frame of more than
    100000 cells in pieces, each styled on its own, which is left out. *)
Definition render_row (df : DataFrame) (r : list value) : list string :=
  imap (λ k v, render_cell (column_style (cell k <$> rows df)) v) r.

Definition render_frame (df : DataFrame) : csv :=
  {| csv_header := columns df;
     csv_records := render_row df <$> rows df |}.

(** [df.to_csv(path, index=False)]: the file is created or replaced. *)
Definition to_csv (df : DataFrame) (path : string) : M () := λ w,
  match fs w !! path with
  | Some Dir => (Raise (IsADirectoryError path), w)
  | _ => (Ok (), {| fs := <[path := File (render_frame df)]> (fs w);
                    stdout := stdout w |})
  end.

(** ** pathlib and builtins *)

(** [Path(path).mkdir(exist_ok=True)], [parent] being the directory the
    path lies in. *)
Definition mkdir (parent path : string) : M () := λ w,
  match fs w !! path with
  | Some Dir => (Ok (), w)
  | Some (File _) => (Raise (FileExistsError path), w)
  | None =>
      match fs w !! parent with
      | Some Dir => (Ok (), {| fs := <[path := Dir]> (fs w);
                               stdout := stdout w |})
      | _ => (Raise (FileNotFoundError path), w)
      end
  end.

Definition print (line : string) : M () := λ w,
  (Ok (), {| fs := fs w; stdout := stdout w ++ [line] |}).

(** ** The script *)

Definition box_plot_stats_csv : string := "public/box_plot_stats.csv".
Definition org_daily_executions_csv : string := "public/org_daily_executions.csv".
Definition monthly_dir : string := "public/monthly".

Definition box_plot_path (year_month : string) : string :=
  "public/monthly/box_plot_" +:+ year_month +:+ ".csv".
Definition org_data_path (year_month : string) : string :=
  "public/monthly/org_data_" +:+ year_month +:+ ".csv".

Section script.
Variable parse_cell : string → option Timestamp.

(** [df['execution_date'] = pd.to_datetime(df['execution_date'])] *)
Definition normalize (df : DataFrame) : result DataFrame :=
  series ← getitem "execution_date" df;
  dates ← to_datetime parse_cell series;
  Ok (setitem "execution_date" dates df).

(** [df['execution_date'].dt.to_period('M')] *)
Definition periods (df : DataFrame) : result (list (option Z)) :=
  series ← getitem "execution_date" df;
  Ok (dt_to_period <$> (series : list value)).

(** [df[df['execution_date'].dt.to_period('M') == period]] *)
Definition month_rows (df : DataFrame) (period : option Z)
    : result DataFrame :=
  ps ← periods df;
  Ok (boolean_index df ((λ p, period_eqb p period) <$> (ps : list (option Z)))).

Definition progress_line (year_month : string) (month_box month_org : DataFrame)
    : string :=
  "  " +:+ year_month +:+ ": " +:+ pretty (length (rows month_box))
  +:+ " box plot days, " +:+ pretty (length (rows month_org))
  +:+ " org data points".

(** The body of the loop over the sorted periods. *)
Definition split_month (box_plot_df org_data_df : DataFrame)
    (period : option Z) : M () :=
  year_month ← lift (strftime period);
  month_box ← lift (month_rows box_plot_df period);
  month_org ← lift (month_rows org_data_df period);
  to_csv month_box (box_plot_path year_month);;
  to_csv month_org (org_data_path year_month);;
  print (progress_line year_month month_box month_org).

Definition script : M () :=
  box_plot_df ← read_csv box_plot_stats_csv;
  org_data_df ← read_csv org_daily_executions_csv;
  box_plot_df ← lift (normalize box_plot_df);
  org_data_df ← lift (normalize org_data_df);
  mkdir "public" monthly_dir;;
  box_plot_months ← lift (unique <$> periods box_plot_df);
  print ("Splitting data into " +:+ pretty (length box_plot_months)
         +:+ " months...");;
  for_each (sorted box_plot_months) (split_month box_plot_df org_data_df);;
  print "Done!".

(** One run of the script from a file system, with a fresh standard
    output. *)
Definition run (files : gmap string node) : result () * World :=
  script {| fs := files; stdout := [] |}.
End script.

(** ** A reader of ISO 8601 texts

    One instance of the text reader [to_datetime] is given: calendar dates
    [YYYY-MM-DD], alone or followed by a time [HH:MM:SS] after a space or
    a [T]. *)
Module ISO8601.
Fixpoint read_digits (n : nat) (acc : Z) (s : string) : option (Z * string) :=
  match n with
  | O => Some (acc, s)
  | S n' =>
      match s with
      | String c s' =>
          d ← Ascii.is_nat c; read_digits n' (10 * acc + Z.of_nat d) s'
      | EmptyString => None
      end
  end.

Definition expect (c : ascii) (s : string) : option string :=
  match s with
  | String c' s' => if decide (c = c') then Some s' else None
  | EmptyString => None
  end.

Definition is_leap (y : Z) : bool :=
  bool_decide (y `mod` 4 = 0)
  && (negb (bool_decide (y `mod` 100 = 0)) || bool_decide (y `mod` 400 = 0)).

Definition days_in_month (y m : Z) : Z :=
  if bool_decide (m = 2) then (if is_leap y then 29 else 28)
  else if bool_decide (m ∈ [4; 6; 9; 11]) then 30
  else 31.

Definition read_date (s : string) : option (Z * Z * Z * string) :=
  '(y, s) ← read_digits 4 0 s;
  s ← expect "-" s;
  '(m, s) ← read_digits 2 0 s;
  s ← expect "-" s;
  '(d, s) ← read_digits 2 0 s;
  guard (1 ≤ m ≤ 12 ∧ 1 ≤ d ≤ days_in_month y m);;
  Some (y, m, d, s).

Definition read_time (s : string) : option (Z * Z * Z * string) :=
  '(h, s) ← read_digits 2 0 s;
  s ← expect ":" s;
  '(mi, s) ← read_digits 2 0 s;
  s ← expect ":" s;
  '(sec, s) ← read_digits 2 0 s;
  guard (h < 24 ∧ mi < 60 ∧ sec < 60);;
  Some (h, mi, sec, s).

Definition parse (s : string) : option Timestamp :=
  '(y, m, d, s) ← read_date s;
  match s with
  | EmptyString => Some (mkTimestamp y m d 0 0 0 0)
  | String sep s' =>
      guard (sep = " "%char ∨ sep = "T"%char);;
      '(h, mi, sec, s'') ← read_time s';
      guard (s'' = "");;
      Some (mkTimestamp y m d h mi sec 0)
  end.
End ISO8601.

(** ** The worked example of the specification *)
Module Scenario.
Definition box_plot_stats : csv :=
  {| csv_header := ["execution_date"; "median"];
     csv_records := [["2024-01-05"; "10"]; ["2024-01-20"; "12"];
                     ["2024-02-10"; "11"]] |}.
Definition org_daily_executions : csv :=
  {| csv_header := ["org"; "execution_date"];
     csv_records := [["acme"; "2024-01-05"]; ["acme"; "2024-03-01"]] |}.
Definition files : gmap string node :=
  <[org_daily_executions_csv := File org_daily_executions]>
    (<[box_plot_stats_csv := File box_plot_stats]> {["public" := Dir]}).

(** The two tables as the script holds them. *)
Definition date (y m d : Z) : value := Datetime (mkTimestamp y m d 0 0 0 0).
Definition box_plot_df : DataFrame :=
  {| columns := ["execution_date"; "median"];
     rows := [[date 2024 1 5; Str "10"]; [date 2024 1 20; Str "12"];
              [date 2024 2 10; Str "11"]] |}.
Definition org_data_df : DataFrame :=
  {| columns := ["org"; "execution_date"];
     rows := [[Str "acme"; date 2024 1 5]; [Str "acme"; date 2024 3 1]] |}.

(** The periods 2024-01 and 2024-02. *)
Definition months : list Z := [648; 649].

(** The file system and the output the run is expected to end with. *)
Definition monthly_files : gmap string node :=
  <["public/monthly/org_data_2024-02.csv" :=
      File {| csv_header := ["org"; "execution_date"]; csv_records := [] |}]>
  (<["public/monthly/box_plot_2024-02.csv" :=
      File {| csv_header := ["execution_date"; "median"];
              csv_records := [["2024-02-10"; "11"]] |}]>
  (<["public/monthly/org_data_2024-01.csv" :=
      File {| csv_header := ["org"; "execution_date"];
              csv_records := [["acme"; "2024-01-05"]] |}]>
  (<["public/monthly/box_plot_2024-01.csv" :=
      File {| csv_header := ["execution_date"; "median"];
              csv_records := [["2024-01-05"; "10"]; ["2024-01-20"; "12"]] |}]>
  (<["public/monthly" := Dir]> files)))).
Definition world : World :=
  {| fs := monthly_files;
     stdout := ["Splitting data into 2 months...";
                "  2024-01: 2 box plot days, 1 org data points";
                "  2024-02: 1 box plot days, 0 org data points";
                "Done!"] |}.
End Scenario.

(** ** Further inputs the properties are tried on *)

(** A box-plot file with a header and no record, next to the org file of
    the scenario. *)
Module EmptyBoxPlot.
Definition header : list string := ["execution_date"; "median"].
Definition files : gmap string node :=
  <[org_daily_executions_csv := File Scenario.org_daily_executions]>
    (<[box_plot_stats_csv :=
         File {| csv_header := header; csv_records := [] |}]>
       {["public" := Dir]}).
End EmptyBoxPlot.

(** A box-plot file whose second record has a text that is no date. *)
Module BadDate.
Definition box_plot_stats : csv :=
  {| csv_header := ["execution_date"; "median"];
     csv_records := [["2024-01-05"; "10"]; ["2024-13-45"; "12"]] |}.
Definition files : gmap string node :=
  <[org_daily_executions_csv := File Scenario.org_daily_executions]>
    (<[box_plot_stats_csv := File box_plot_stats]> {["public" := Dir]}).

(** The two tables as read, and their date columns. *)
Definition box_plot_df : DataFrame :=
  {| columns := ["execution_date"; "median"];
     rows := [[Str "2024-01-05"; Str "10"]; [Str "2024-13-45"; Str "12"]] |}.
Definition org_data_df : DataFrame :=
  {| columns := ["org"; "execution_date"];
     rows := [[Str "acme"; Str "2024-01-05"];
              [Str "acme"; Str "2024-03-01"]] |}.
End BadDate.

(** Dates given with a time, and a field that [read_csv] takes as
    missing. *)
Module Reserialized.
Definition box_plot_stats : csv :=
  {| csv_header := ["execution_date"; "region"];
     csv_records := [["2024-01-05 00:00:00"; "NA"]] |}.
Definition org_daily_executions : csv :=
  {| csv_header := ["execution_date"];
     csv_records := [["2024-01-05 00:00:00"]; ["2024-01-20 12:30:00"]] |}.
Definition files : gmap string node :=
  <[org_daily_executions_csv := File org_daily_executions]>
    (<[box_plot_stats_csv := File box_plot_stats]> {["public" := Dir]}).

Definition midnight : Timestamp := mkTimestamp 2024 1 5 0 0 0 0.
Definition box_plot_df : DataFrame :=
  {| columns := ["execution_date"; "region"];
     rows := [[Datetime midnight; NaN]] |}.
Definition org_data_df : DataFrame :=
  {| columns := ["execution_date"];
     rows := [[Datetime midnight];
              [Datetime (mkTimestamp 2024 1 20 12 30 0 0)]] |}.

(** What the run leaves for the one month, 2024-01. *)
Definition box_plot_2024_01 : csv :=
  {| csv_header := ["execution_date"; "region"];
     csv_records := [["2024-01-05"; ""]] |}.
Definition org_data_2024_01 : csv :=
  {| csv_header := ["execution_date"];
     csv_records := [["2024-01-05 00:00:00"]; ["2024-01-20 12:30:00"]] |}.
Definition world : World :=
  {| fs := <["public/monthly/org_data_2024-01.csv" := File org_data_2024_01]>
           (<["public/monthly/box_plot_2024-01.csv" := File box_plot_2024_01]>
           (<["public/monthly" := Dir]> files));
     stdout := ["Splitting data into 1 months...";
                "  2024-01: 1 box plot days, 2 org data points";
                "Done!"] |}.
End Reserialized.

(** ** Notions the properties are stated with *)

(** A table of the run: the file at [path] as the script holds it once it
    has read it and converted its dates (lines 6 and 10 of the source for
    the box-plot table, lines 7 and 11 for the org table). *)
Definition table (parse_cell : string → option Timestamp)
    (path : string) (files : gmap string node) : result DataFrame :=
  df ← (read_csv path {| fs := files; stdout := [] |}).1;
  normalize parse_cell df.

(** The period of a row of a table; [None] when the row has no date. *)
Definition row_period (df : DataFrame) (r : list value) : option Z :=
  j ← column_index "execution_date" df; dt_to_period (cell j r).

(** The rows of a table whose date falls in the month [p], in the words of
    the specification; [month_rows_month] below shows that the boolean
    indexing of the source selects them. *)
Definition month (df : DataFrame) (p : Z) : DataFrame :=
  {| columns := columns df;
     rows := filter (λ r, row_period df r = Some p) (rows df) |}.

(** The paths the loop may write to. *)
Definition output_path (path : string) : Prop :=
  ∃ s, path = box_plot_path s ∨ path = org_data_path s.

(** What one turn of the loop, and what the whole loop, leaves in the file
    system. *)
Definition write_month (A B : DataFrame) (m : gmap string node) (p : Z)
    : gmap string node :=
  <[org_data_path (strftime_Ym p) := File (render_frame (month B p))]>
    (<[box_plot_path (strftime_Ym p) := File (render_frame (month A p))]> m).
Definition write_months (A B : DataFrame) (ps : list Z)
    (m : gmap string node) : gmap string node :=
  foldl (write_month A B) m ps.

(** The lines the loop prints, the condition under which [mkdir] goes
    through, and the condition under which no write of the loop meets a
    directory. *)
Definition progress_lines (A B : DataFrame) (ps : list Z) : list string :=
  (λ p, progress_line (strftime_Ym p) (month A p) (month B p)) <$> ps.

Definition can_mkdir (files : gmap string node) : Prop :=
  files !! monthly_dir = Some Dir
  ∨ (files !! monthly_dir = None ∧ files !! "public" = Some Dir).

Definition writable (files : gmap string node) (ps : list Z) : Prop :=
  ∀ p, p ∈ ps →
    files !! box_plot_path (strftime_Ym p) ≠ Some Dir
    ∧ files !! org_data_path (strftime_Ym p) ≠ Some Dir.

(** Everything a run that ends well prints. *)
Definition printed (A B : DataFrame) (ps : list Z) : list string :=
  ["Splitting data into "
   +:+ pretty (length (unique (row_period A <$> rows A))) +:+ " months..."]
  ++ progress_lines A B ps ++ ["Done!"].

(** ** The statements of the properties *)



(** The run has left one pair of files for each period of [ps], holding
    the rows of the month of either table, and has touched no other path
    but the directory. *)
Definition one_pair_per_period (A B : DataFrame) (ps : list Z)
    (before after : gmap string node) : Prop :=
  (∀ p, p ∈ ps →
     after !! box_plot_path (strftime_Ym p)
       = Some (File (render_frame (month A p)))
     ∧ after !! org_data_path (strftime_Ym p)
       = Some (File (render_frame (month B p))))
  ∧ (∀ path, path ≠ monthly_dir →
       (∀ p, p ∈ ps → path ≠ box_plot_path (strftime_Ym p)
                      ∧ path ≠ org_data_path (strftime_Ym p)) →
       after !! path = before !! path).



(** The file at [path] holds the rows of the month [p] of the table [df],
    one record per row and in the order of the rows, and these rows are in
    the order they have in the table: any two of them stand in the table in
    the same order. *)
Definition written_in_order (df : DataFrame) (path : string) (p : Z)
    (after : gmap string node) : Prop :=
  after !! path = Some (File (render_frame (month df p)))
  ∧ csv_records (render_frame (month df p))
    = render_row (month df p) <$> rows (month df p)
  ∧ rows (month df p) `sublist_of` rows df
  ∧ ∀ i j x y, (i < j)%nat →
      rows (month df p) !! i = Some x → rows (month df p) !! j = Some y →
      ∃ i' j', (i' < j')%nat ∧ rows df !! i' = Some x ∧ rows df !! j' = Some y.

(** The row [r] of the org table is in no file of the run: in none of the
    [org_data_] files of the periods [ps], and the run leaves untouched the
    paths that bear the row's own period. *)
Definition in_no_file (B : DataFrame) (ps : list Z)
    (before after : gmap string node) (r : list value) : Prop :=
  (∀ p, p ∈ ps → r ∉ rows (month B p))
  ∧ ∀ q, row_period B r = Some q →
      after !! org_data_path (strftime_Ym q)
        = before !! org_data_path (strftime_Ym q)
      ∧ after !! box_plot_path (strftime_Ym q)
        = before !! box_plot_path (strftime_Ym q).







(** ** Notions for the outcomes of every run *)

(** The world a run starts in. *)
Definition initial (files : gmap string node) : World :=
  {| fs := files; stdout := [] |}.

(** What the loop may do to the file system: it leaves every path that is
    no output path as it is, removes no path, and neither makes nor
    replaces a directory. *)
Definition kept (m m' : gmap string node) : Prop :=
  ∀ path,
    (¬ output_path path → m' !! path = m !! path)
    ∧ (is_Some (m !! path) → is_Some (m' !! path))
    ∧ (m !! path = Some Dir ↔ m' !! path = Some Dir).

(** The line a file system accounts for, for the period [p]: the counts
    are those of the records of the two files of the period. *)
Definition reported (after : gmap string node) (p : Z) : string :=
  match after !! box_plot_path (strftime_Ym p),
        after !! org_data_path (strftime_Ym p) with
  | Some (File month_box), Some (File month_org) =>
      "  " +:+ strftime_Ym p +:+ ": "
      +:+ pretty (length (csv_records month_box)) +:+ " box plot days, "
      +:+ pretty (length (csv_records month_org)) +:+ " org data points"
  | _, _ => ""
  end.

(** The first line of the output. *)
Definition announced (A : DataFrame) : string :=
  "Splitting data into "
  +:+ pretty (length (unique (row_period A <$> rows A))) +:+ " months...".

(** Inputs on which the run does not end well. *)
Module Mishaps.
(** No org file, and a box-plot file with a text that is no date. *)
Definition no_org_file : gmap string node :=
  <[box_plot_stats_csv := File BadDate.box_plot_stats]> {["public" := Dir]}.

(** A box-plot file without the date column. *)
Definition undated : csv :=
  {| csv_header := ["day"; "median"];
     csv_records := [["2024-01-05"; "10"]] |}.
Definition undated_df : DataFrame :=
  {| columns := ["day"; "median"];
     rows := [[Str "2024-01-05"; Str "10"]] |}.
Definition no_date_column : gmap string node :=
  <[org_daily_executions_csv := File Scenario.org_daily_executions]>
    (<[box_plot_stats_csv := File undated]> {["public" := Dir]}).

(** A regular file where the output directory is to be. *)
Definition monthly_is_file : gmap string node :=
  <[monthly_dir := File {| csv_header := []; csv_records := [] |}]>
    Scenario.files.

(** A directory where a file of February is to be written. *)
Definition squatted_box : gmap string node :=
  <["public/monthly/box_plot_2024-02.csv" := Dir]>
    (<[monthly_dir := Dir]> Scenario.files).
Definition squatted_org : gmap string node :=
  <["public/monthly/org_data_2024-02.csv" := Dir]>
    (<[monthly_dir := Dir]> Scenario.files).

(** What a run leaves of either: the two files of January and their
    line, and with the directory at the org path the box-plot file of
    February as well. *)
Definition january (m : gmap string node) : gmap string node :=
  <["public/monthly/org_data_2024-01.csv" :=
      File {| csv_header := ["org"; "execution_date"];
              csv_records := [["acme"; "2024-01-05"]] |}]>
  (<["public/monthly/box_plot_2024-01.csv" :=
      File {| csv_header := ["execution_date"; "median"];
              csv_records := [["2024-01-05"; "10"]; ["2024-01-20"; "12"]] |}]>
   m).
Definition squatted_box_world : World :=
  {| fs := january squatted_box;
     stdout := ["Splitting data into 2 months...";
                "  2024-01: 2 box plot days, 1 org data points"] |}.

(** A box-plot record without a date. *)
Definition dateless : csv :=
  {| csv_header := ["execution_date"; "median"];
     csv_records := [["2024-01-05"; "10"]; [""; "12"]] |}.
Definition dateless_df : DataFrame :=
  {| columns := ["execution_date"; "median"];
     rows := [[Scenario.date 2024 1 5; Str "10"]; [NaT; Str "12"]] |}.
Definition missing_date : gmap string node :=
  <[org_daily_executions_csv := File Scenario.org_daily_executions]>
    (<[box_plot_stats_csv := File dateless]> {["public" := Dir]}).
End Mishaps.

(** * Properties *)

(** ** Texts and file names *)

Lemma string_length_app (s t : string) :
  String.length (s +:+ t) = (String.length s + String.length t)%nat.
Proof. induction s as [|a s IH]; simpl; [done|]. by rewrite IH. Qed.

Lemma app_inj_suffix (s s' t t' : string) :
  String.length t = String.length t' →
  s +:+ t = s' +:+ t' → s = s' ∧ t = t'.
Proof.
  revert s'. induction s as [|a s IH]; intros [|a' s'] Hlen Heq; simpl in *.
  - done.
  - exfalso. apply (f_equal String.length) in Heq.
    rewrite !string_length_app in Heq. simpl in Heq. lia.
  - exfalso. apply (f_equal String.length) in Heq.
    rewrite !string_length_app in Heq. simpl in Heq. lia.
  - injection Heq as -> Heq. destruct (IH _ Hlen Heq) as [-> ->]. done.
Qed.

Lemma period_month_range (p : Z) : 1 ≤ period_month p ≤ 12.
Proof. unfold period_month. pose proof (Z.mod_pos_bound p 12). lia. Qed.

Lemma period_year_month (p : Z) :
  p = (period_year p - 1970) * 12 + (period_month p - 1).
Proof.
  unfold period_year, period_month. pose proof (Z.div_mod p 12). lia.
Qed.


Lemma month_cases (m : Z) :
  1 ≤ m ≤ 12 →
  m = 1 ∨ m = 2 ∨ m = 3 ∨ m = 4 ∨ m = 5 ∨ m = 6
  ∨ m = 7 ∨ m = 8 ∨ m = 9 ∨ m = 10 ∨ m = 11 ∨ m = 12.
Proof. lia. Qed.

(** The month field is two characters, with a leading zero below ten. *)
Lemma fmt_month_length (m : Z) :
  1 ≤ m ≤ 12 → String.length (fmt_0d 2 m) = 2%nat.
Proof.
  intros Hm. destruct (month_cases m Hm) as
    [->|[->|[->|[->|[->|[->|[->|[->|[->|[->|[->| ->]]]]]]]]]]]; reflexivity.
Qed.

Lemma fmt_month_inj (m m' : Z) :
  1 ≤ m ≤ 12 → 1 ≤ m' ≤ 12 → fmt_0d 2 m = fmt_0d 2 m' → m = m'.
Proof.
  intros Hm Hm'.
  destruct (month_cases m Hm) as
    [->|[->|[->|[->|[->|[->|[->|[->|[->|[->|[->| ->]]]]]]]]]]];
  destruct (month_cases m' Hm') as
    [->|[->|[->|[->|[->|[->|[->|[->|[->|[->|[->| ->]]]]]]]]]]];
  vm_compute; intros Heq; first [reflexivity | discriminate].
Qed.

Lemma strftime_Ym_inj (p q : Z) : strftime_Ym p = strftime_Ym q → p = q.
Proof.
  intros Heq. unfold strftime_Ym in Heq.
  apply app_inj_suffix in Heq as [Hy Hm].
  - apply (inj pretty) in Hy. apply (inj (String.app "-")) in Hm.
    apply fmt_month_inj in Hm; [|apply period_month_range..].
    rewrite (period_year_month p), (period_year_month q). congruence.
  - rewrite !string_length_app, !fmt_month_length by apply period_month_range. done.
Qed.

Lemma box_plot_path_inj (s s' : string) :
  box_plot_path s = box_plot_path s' → s = s'.
Proof.
  intros Heq. unfold box_plot_path in Heq.
  apply (inj (String.app _)) in Heq.
  by apply app_inj_suffix in Heq as [-> _].
Qed.

Lemma org_data_path_inj (s s' : string) :
  org_data_path s = org_data_path s' → s = s'.
Proof.
  intros Heq. unfold org_data_path in Heq.
  apply (inj (String.app _)) in Heq.
  by apply app_inj_suffix in Heq as [-> _].
Qed.

Lemma box_plot_path_org_data_path (s s' : string) :
  box_plot_path s ≠ org_data_path s'.
Proof. intros H. vm_compute in H. congruence. Qed.

(** The paths the script reads and the directory it makes are none of the
    paths it writes. *)
Lemma box_plot_stats_csv_not_output : ¬ output_path box_plot_stats_csv.
Proof. intros [s [H|H]]; vm_compute in H; congruence. Qed.
Lemma org_daily_executions_csv_not_output :
  ¬ output_path org_daily_executions_csv.
Proof. intros [s [H|H]]; vm_compute in H; congruence. Qed.
Lemma monthly_dir_not_output : ¬ output_path monthly_dir.
Proof. intros [s [H|H]]; vm_compute in H; congruence. Qed.

(** ** The monad of the run *)

Lemma result_bind_Ok {A B} (m : result A) (f : A → result B) (b : B) :
  m ≫= f = Ok b → ∃ a, m = Ok a ∧ f a = Ok b.
Proof. destruct m as [a|e]; [eauto | done]. Qed.

Lemma bind_Ok {A B} (m : M A) (f : A → M B) (w w' : World) (b : B) :
  (m ≫= f) w = (Ok b, w') → ∃ a w1, m w = (Ok a, w1) ∧ f a w1 = (Ok b, w').
Proof.
  unfold mbind, M_bind. destruct (m w) as [[a|e] w1]; [eauto | done].
Qed.

Lemma bind_run {A B} (m : M A) (f : A → M B) (w w1 : World) (a : A) :
  m w = (Ok a, w1) → (m ≫= f) w = f a w1.
Proof. unfold mbind, M_bind. by intros ->. Qed.

Lemma bind_Raise {A B} (m : M A) (f : A → M B) (w w1 : World) (e : error) :
  m w = (Raise e, w1) → (m ≫= f) w = (Raise e, w1).
Proof. unfold mbind, M_bind. by intros ->. Qed.

Lemma lift_Ok {A} (r : result A) (w w' : World) (a : A) :
  lift r w = (Ok a, w') → r = Ok a ∧ w' = w.
Proof. unfold lift. by intros [= -> ->]. Qed.

(** ** Columns, dates and months *)


Lemma periods_column (df : DataFrame) (j : nat) :
  column_index "execution_date" df = Some j →
  periods df = Ok ((λ r, dt_to_period (cell j r)) <$> rows df).
Proof.
  intros Hj. unfold periods, getitem. rewrite Hj. simpl.
  by rewrite <-list_fmap_compose.
Qed.

Lemma row_period_column (df : DataFrame) (j : nat) (r : list value) :
  column_index "execution_date" df = Some j →
  row_period df r = dt_to_period (cell j r).
Proof. unfold row_period. by intros ->. Qed.

Lemma periods_row_period (df : DataFrame) (j : nat) :
  column_index "execution_date" df = Some j →
  periods df = Ok (row_period df <$> rows df).
Proof.
  intros Hj. rewrite (periods_column _ _ Hj). f_equal.
  apply list_fmap_ext. intros i r _. by rewrite (row_period_column _ _ _ Hj).
Qed.

Lemma period_eqb_Some (a : option Z) (p : Z) :
  period_eqb a (Some p) = true ↔ a = Some p.
Proof.
  destruct a as [x|]; simpl; [|done].
  rewrite bool_decide_eq_true. naive_solver.
Qed.

Lemma mask_rows_filter {A} (f : A → bool) (P : A → Prop)
    `{∀ x, Decision (P x)} (l : list A) :
  (∀ x, f x = true ↔ P x) → mask_rows l (f <$> l) = filter P l.
Proof.
  intros HfP. induction l as [|x l IH]; [done|]. csimpl.
  rewrite filter_cons. destruct (f x) eqn:Hfx.
  - rewrite decide_True by by apply HfP. by rewrite IH.
  - rewrite decide_False; [done|]. rewrite <-HfP. congruence.
Qed.

(** The boolean indexing of the source selects the rows of the month. *)
Lemma month_rows_month (df : DataFrame) (j : nat) (p : Z) :
  column_index "execution_date" df = Some j →
  month_rows df (Some p) = Ok (month df p).
Proof.
  intros Hj. unfold month_rows. rewrite (periods_row_period _ _ Hj). simpl.
  unfold boolean_index, month. do 2 f_equal.
  rewrite <-list_fmap_compose.
  apply mask_rows_filter. intros r. apply period_eqb_Some.
Qed.

Section to_datetime_facts.
Variable parse_cell : string → option Timestamp.

Lemma to_datetime_at_Ok (i : nat) (arg ds : list value) :
  to_datetime_at parse_cell i arg = Ok ds →
  Forall2 (λ v d, convert parse_cell v = Some d) arg ds.
Proof.
  revert i ds. induction arg as [|v arg IH]; intros i ds; simpl.
  - intros [= <-]. constructor.
  - destruct (convert parse_cell v) as [d|] eqn:Hv; [|done].
    intros (ds' & Hds' & [= <-])%result_bind_Ok.
    constructor; eauto.
Qed.



Lemma normalize_Ok (df df' : DataFrame) :
  normalize parse_cell df = Ok df' →
  ∃ j dates,
    column_index "execution_date" df = Some j
    ∧ Forall2 (λ r d, convert parse_cell (cell j r) = Some d) (rows df) dates
    ∧ df' = {| columns := columns df;
               rows := zip_with (λ r d, <[j := d]> r) (rows df) dates |}.
Proof.
  unfold normalize, getitem, setitem.
  destruct (column_index "execution_date" df) as [j|] eqn:Hj; [|done].
  simpl. intros (dates & Hdates & [= <-])%result_bind_Ok.
  exists j, dates. split_and!; [done| |done].
  apply to_datetime_at_Ok in Hdates. by apply Forall2_fmap_l in Hdates.
Qed.

Lemma normalize_column_index (df df' : DataFrame) :
  normalize parse_cell df = Ok df' →
  ∃ j, column_index "execution_date" df' = Some j.
Proof.
  intros (j & dates & Hj & _ & ->)%normalize_Ok. by exists j.
Qed.

Lemma table_column_index (path : string) (files : gmap string node)
    (df : DataFrame) :
  table parse_cell path files = Ok df →
  ∃ j, column_index "execution_date" df = Some j.
Proof.
  unfold table. intros (df0 & _ & Hn)%result_bind_Ok.
  by eapply normalize_column_index.
Qed.
End to_datetime_facts.

(** ** Distinct and sorted periods *)

Lemma elem_of_unique_from (seen l : list (option Z)) (x : option Z) :
  x ∈ unique_from seen l ↔ x ∈ l ∧ x ∉ seen.
Proof.
  revert seen. induction l as [|y l IH]; intros seen; simpl.
  - rewrite elem_of_nil. naive_solver.
  - case_decide as Hy.
    + rewrite IH, elem_of_cons. naive_solver.
    + rewrite !elem_of_cons, IH, not_elem_of_cons.
      destruct (decide (x = y)) as [->|Hxy]; naive_solver.
Qed.

Lemma NoDup_unique_from (seen l : list (option Z)) :
  NoDup (unique_from seen l).
Proof.
  revert seen. induction l as [|y l IH]; intros seen; simpl.
  - constructor.
  - case_decide; [done|]. constructor; [|done].
    rewrite elem_of_unique_from, not_elem_of_cons. naive_solver.
Qed.

Lemma elem_of_unique (l : list (option Z)) (x : option Z) :
  x ∈ unique l ↔ x ∈ l.
Proof.
  unfold unique. rewrite elem_of_unique_from, elem_of_nil. naive_solver.
Qed.

Lemma NoDup_unique (l : list (option Z)) : NoDup (unique l).
Proof. apply NoDup_unique_from. Qed.

Lemma not_after_total : Total not_after.
Proof.
  intros [x|] [y|]; unfold not_after; simpl; auto.
  rewrite !bool_decide_eq_false. lia.
Qed.

Lemma sorted_Permutation (l : list (option Z)) : sorted l ≡ₚ l.
Proof. apply merge_sort_Permutation. Qed.

Lemma Sorted_Some_inv (ps : list Z) :
  Sorted not_after (Some <$> ps) → Sorted Z.le ps.
Proof.
  induction ps as [|p ps IH]; [constructor|]. csimpl.
  intros [Hs Hhd]%Sorted_inv. constructor; [auto|].
  destruct ps as [|q ps]; [constructor|]. csimpl in Hhd.
  apply HdRel_inv in Hhd. constructor.
  unfold not_after in Hhd. simpl in Hhd.
  apply bool_decide_eq_false in Hhd. lia.
Qed.

Lemma Sorted_le_NoDup_lt (ps : list Z) :
  Sorted Z.le ps → NoDup ps → StronglySorted Z.lt ps.
Proof.
  intros Hs Hnd. apply (Sorted_StronglySorted Z.le) in Hs.
  induction Hs as [|p ps Hs IH Hall]; [constructor|].
  apply NoDup_cons in Hnd as [Hp Hnd]. constructor; [auto|].
  apply Forall_forall. intros q Hq.
  rewrite Forall_forall in Hall. specialize (Hall q Hq).
  assert (p ≠ q) by (intros ->; done). lia.
Qed.


(** When the sorted periods are all present (none is [NaT]), they are the
    periods of the list, each once, in ascending order. *)
Lemma sorted_unique_Some (l : list (option Z)) (ps : list Z) :
  sorted (unique l) = Some <$> ps →
  StronglySorted Z.lt ps ∧ (∀ p, p ∈ ps ↔ Some p ∈ l) ∧ None ∉ l.
Proof.
  intros Hps.
  assert (Some <$> ps ≡ₚ unique l) as Hperm
    by (rewrite <-Hps; apply sorted_Permutation).
  split_and!.
  - apply Sorted_le_NoDup_lt.
    + apply Sorted_Some_inv. rewrite <-Hps.
      apply (Sorted_merge_sort not_after (Total0 := not_after_total)).
    + apply (NoDup_fmap Some). rewrite Hperm. apply NoDup_unique.
  - intros p. rewrite <-elem_of_unique, <-Hperm, list_elem_of_fmap.
    naive_solver.
  - rewrite <-elem_of_unique, <-Hperm, list_elem_of_fmap. naive_solver.
Qed.



(** ** What the loop writes *)

Section writes.
Variables A B : DataFrame.

Lemma write_month_union (m : gmap string node) (p : Z) :
  write_month A B m p = write_month A B ∅ p ∪ m.
Proof.
  unfold write_month. by rewrite <-!insert_union_l, (left_id_L ∅ (∪)).
Qed.

Lemma write_months_union (ps : list Z) (m : gmap string node) :
  write_months A B ps m = write_months A B ps ∅ ∪ m.
Proof.
  unfold write_months. revert m.
  induction ps as [|p ps IH]; intros m; simpl.
  - by rewrite (left_id_L ∅ (∪)).
  - rewrite (IH (write_month A B m p)), (IH (write_month A B ∅ p)).
    by rewrite (write_month_union m), (assoc_L (∪)).
Qed.

Lemma write_month_lookup (m : gmap string node) (p : Z) (path : string) :
  write_month A B m p !! path =
    if decide (path = org_data_path (strftime_Ym p))
    then Some (File (render_frame (month B p)))
    else if decide (path = box_plot_path (strftime_Ym p))
    then Some (File (render_frame (month A p)))
    else m !! path.
Proof.
  unfold write_month. rewrite !lookup_insert.
  repeat case_decide; naive_solver.
Qed.

(** Every write is of a file, to an output path, for a period of the
    loop. *)
Lemma write_months_lookup_inv (ps : list Z) (m : gmap string node)
    (path : string) (v : node) :
  write_months A B ps m !! path = Some v →
  m !! path = Some v
  ∨ ∃ p, p ∈ ps
      ∧ ((path = box_plot_path (strftime_Ym p)
          ∧ v = File (render_frame (month A p)))
         ∨ (path = org_data_path (strftime_Ym p)
            ∧ v = File (render_frame (month B p)))).
Proof.
  unfold write_months. revert m.
  induction ps as [|p ps IH]; intros m; simpl; [auto|].
  intros [Hm|(q & Hq & Hv)]%IH.
  - rewrite write_month_lookup in Hm. repeat case_decide.
    + right. exists p. split; [apply elem_of_cons; auto|naive_solver].
    + right. exists p. split; [apply elem_of_cons; auto|naive_solver].
    + auto.
  - right. exists q. split; [apply elem_of_cons; auto|done].
Qed.

Lemma write_months_lookup_box (ps : list Z) (m : gmap string node) (p : Z) :
  p ∈ ps
  ∨ m !! box_plot_path (strftime_Ym p) = Some (File (render_frame (month A p))) →
  write_months A B ps m !! box_plot_path (strftime_Ym p)
  = Some (File (render_frame (month A p))).
Proof.
  unfold write_months. revert m.
  induction ps as [|q ps IH]; intros m; simpl.
  - intros [Hp|Hm]; [by apply elem_of_nil in Hp|done].
  - intros Hp. apply IH.
    destruct (decide (p ∈ ps)) as [|Hps]; [by left|right].
    rewrite write_month_lookup.
    rewrite decide_False by apply box_plot_path_org_data_path.
    case_decide as Hpq;
      [by apply box_plot_path_inj, strftime_Ym_inj in Hpq as ->|].
    destruct Hp as [[->|?]%elem_of_cons|Hm]; done.
Qed.

Lemma write_months_lookup_org (ps : list Z) (m : gmap string node) (p : Z) :
  p ∈ ps
  ∨ m !! org_data_path (strftime_Ym p) = Some (File (render_frame (month B p))) →
  write_months A B ps m !! org_data_path (strftime_Ym p)
  = Some (File (render_frame (month B p))).
Proof.
  unfold write_months. revert m.
  induction ps as [|q ps IH]; intros m; simpl.
  - intros [Hp|Hm]; [by apply elem_of_nil in Hp|done].
  - intros Hp. apply IH.
    destruct (decide (p ∈ ps)) as [|Hps]; [by left|right].
    rewrite write_month_lookup.
    case_decide as Hpq;
      [by apply org_data_path_inj, strftime_Ym_inj in Hpq as ->|].
    rewrite decide_False
      by (intros H; by apply symmetry, box_plot_path_org_data_path in H).
    destruct Hp as [[->|?]%elem_of_cons|Hm]; done.
Qed.

(** A path that is no output path is left as it was. *)
Lemma write_months_lookup_other (ps : list Z) (m : gmap string node)
    (path : string) :
  ¬ output_path path → write_months A B ps m !! path = m !! path.
Proof.
  intros Hpath. unfold write_months. revert m.
  induction ps as [|p ps IH]; intros m; simpl; [done|].
  rewrite IH, write_month_lookup.
  repeat case_decide; [destruct Hpath; unfold output_path; eauto..|done].
Qed.

Lemma writable_write_month (m : gmap string node) (p : Z) (ps : list Z) :
  writable m ps → writable (write_month A B m p) ps.
Proof.
  intros Hm q Hq. rewrite !write_month_lookup.
  destruct (Hm q Hq). repeat case_decide; done.
Qed.

Lemma writable_cons (m : gmap string node) (p : Z) (ps : list Z) :
  writable m (p :: ps) ↔
  (m !! box_plot_path (strftime_Ym p) ≠ Some Dir
   ∧ m !! org_data_path (strftime_Ym p) ≠ Some Dir)
  ∧ writable m ps.
Proof.
  unfold writable. split.
  - intros Hall. split; [apply Hall, elem_of_cons; auto|].
    intros q Hq. apply Hall, elem_of_cons. auto.
  - intros [Hp Hall] q [->|Hq]%elem_of_cons; auto.
Qed.

Lemma writable_write_month_inv (m : gmap string node) (p : Z) (ps : list Z) :
  m !! box_plot_path (strftime_Ym p) ≠ Some Dir →
  m !! org_data_path (strftime_Ym p) ≠ Some Dir →
  writable (write_month A B m p) ps → writable m ps.
Proof.
  intros Hbox Horg Hm q Hq. destruct (Hm q Hq) as [Hb Ho].
  rewrite !write_month_lookup in Hb, Ho.
  rewrite decide_False in Hb by apply box_plot_path_org_data_path.
  split; intros Hdir.
  - destruct (decide (_ = _)) as [Heq|_] in Hb; [|done].
    rewrite Heq in Hdir. done.
  - destruct (decide (_ = _)) as [Heq|_] in Ho.
    + rewrite Heq in Hdir. done.
    + destruct (decide (_ = _)) as [Heq|_] in Ho; [|done].
      by apply symmetry, box_plot_path_org_data_path in Heq.
Qed.

(** One turn of the loop. *)
Lemma split_month_run (p : Z) (w : World) :
  is_Some (column_index "execution_date" A) →
  is_Some (column_index "execution_date" B) →
  fs w !! box_plot_path (strftime_Ym p) ≠ Some Dir →
  fs w !! org_data_path (strftime_Ym p) ≠ Some Dir →
  split_month A B (Some p) w =
    (Ok (), {| fs := write_month A B (fs w) p;
               stdout := stdout w
                 ++ [progress_line (strftime_Ym p) (month A p) (month B p)] |}).
Proof.
  intros [jA HA] [jB HB] Hbox Horg. unfold split_month. simpl.
  unfold mbind, M_bind, lift.
  rewrite (month_rows_month _ _ _ HA), (month_rows_month _ _ _ HB).
  unfold to_csv at 1.
  destruct (fs w !! box_plot_path (strftime_Ym p)) as [[c|]|] eqn:Hb;
    [|done|]; simpl; unfold to_csv, print; simpl;
    rewrite lookup_insert_ne by apply box_plot_path_org_data_path;
    destruct (fs w !! org_data_path (strftime_Ym p)) as [[c'|]|] eqn:Ho;
    done.
Qed.

Lemma split_month_Ok (period : option Z) (w w' : World) :
  is_Some (column_index "execution_date" A) →
  is_Some (column_index "execution_date" B) →
  split_month A B period w = (Ok (), w') →
  ∃ p, period = Some p
     ∧ fs w !! box_plot_path (strftime_Ym p) ≠ Some Dir
     ∧ fs w !! org_data_path (strftime_Ym p) ≠ Some Dir.
Proof.
  intros [jA HA] [jB HB]. destruct period as [p|]; [|done].
  intros Hrun. exists p. split; [done|].
  revert Hrun. unfold split_month. simpl. unfold mbind, M_bind, lift.
  rewrite (month_rows_month _ _ _ HA), (month_rows_month _ _ _ HB).
  unfold to_csv at 1.
  destruct (fs w !! box_plot_path (strftime_Ym p)) as [[c|]|] eqn:Hb;
    [|done|]; simpl; unfold to_csv, print; simpl;
    rewrite lookup_insert_ne by apply box_plot_path_org_data_path;
    destruct (fs w !! org_data_path (strftime_Ym p)) as [[c'|]|] eqn:Ho;
    done.
Qed.

(** The loop over periods that are all present. *)
Lemma for_each_run (ps : list Z) (w : World) :
  is_Some (column_index "execution_date" A) →
  is_Some (column_index "execution_date" B) →
  writable (fs w) ps →
  for_each (Some <$> ps) (split_month A B) w =
    (Ok (), {| fs := write_months A B ps (fs w);
               stdout := stdout w ++ progress_lines A B ps |}).
Proof.
  intros HA HB. revert w. induction ps as [|p ps IH]; intros w Hw.
  - simpl. rewrite (right_id_L [] (++)). by destruct w.
  - apply writable_cons in Hw as [[Hbox Horg] Hw]. csimpl.
    erewrite bind_run by by apply split_month_run.
    rewrite IH by by apply writable_write_month.
    simpl. by rewrite <-(assoc_L (++)).
Qed.

(** A loop that ends well met no [NaT] and no directory. *)
Lemma for_each_Ok (l : list (option Z)) (w w' : World) :
  is_Some (column_index "execution_date" A) →
  is_Some (column_index "execution_date" B) →
  for_each l (split_month A B) w = (Ok (), w') →
  ∃ ps, l = Some <$> ps ∧ writable (fs w) ps.
Proof.
  intros HA HB. revert w. induction l as [|period l IH]; intros w; simpl.
  - intros _. exists []. split; [done|]. intros p Hp. by apply elem_of_nil in Hp.
  - intros ([] & w1 & Hbody & Hrest)%bind_Ok.
    destruct (split_month_Ok _ _ _ HA HB Hbody) as (p & -> & Hbox & Horg).
    rewrite (split_month_run p w HA HB Hbox Horg) in Hbody.
    injection Hbody as <-.
    destruct (IH _ Hrest) as (ps & -> & Hw).
    exists (p :: ps). split; [done|].
    apply writable_cons. split; [done|].
    by eapply writable_write_month_inv.
Qed.
End writes.

(** ** The run as a whole *)

Lemma read_csv_state (path : string) (files : gmap string node)
    (out : list string) :
  read_csv path {| fs := files; stdout := out |} =
    ((read_csv path {| fs := files; stdout := [] |}).1,
     {| fs := files; stdout := out |}).
Proof. unfold read_csv. simpl. by destruct (files !! path) as [[c|]|]. Qed.

Lemma mkdir_run (w : World) :
  can_mkdir (fs w) →
  mkdir "public" monthly_dir w =
    (Ok (), {| fs := <[monthly_dir := Dir]> (fs w); stdout := stdout w |}).
Proof.
  unfold mkdir. intros [Hdir|[Hnone Hparent]].
  - rewrite Hdir, insert_id by done. by destruct w.
  - by rewrite Hnone, Hparent.
Qed.

Lemma mkdir_Ok (w w' : World) :
  mkdir "public" monthly_dir w = (Ok (), w') → can_mkdir (fs w).
Proof.
  unfold mkdir, can_mkdir.
  destruct (fs w !! monthly_dir) as [[c|]|]; [done|auto|].
  destruct (fs w !! "public") as [[c|]|]; [done|auto|done].
Qed.

Lemma writable_insert_monthly_dir (files : gmap string node) (ps : list Z) :
  writable (<[monthly_dir := Dir]> files) ps ↔ writable files ps.
Proof.
  unfold writable.
  assert (∀ path, output_path path →
    <[monthly_dir := Dir]> files !! path = files !! path) as Hother.
  { intros path Hpath. apply lookup_insert_ne. intros <-.
    by apply monthly_dir_not_output. }
  split; intros Hall p Hp; destruct (Hall p Hp) as [Hb Ho].
  - rewrite !Hother in Hb, Ho by (unfold output_path; eauto). done.
  - rewrite !Hother by (unfold output_path; eauto). done.
Qed.

Section run_facts.
Variable parse_cell : string → option Timestamp.

Lemma table_Ok (path : string) (files : gmap string node) (df : DataFrame) :
  table parse_cell path files = Ok df →
  ∃ df0, (read_csv path {| fs := files; stdout := [] |}).1 = Ok df0
         ∧ normalize parse_cell df0 = Ok df.
Proof. unfold table. by intros (df0 & ? & ?)%result_bind_Ok; eauto. Qed.

(** The run of the script, when both tables load, the directory can be
    made, no date of the box-plot table is missing and no directory sits
    where a file is to be written. *)
Lemma run_Ok_intro (files : gmap string node) (A B : DataFrame)
    (ps : list Z) :
  table parse_cell box_plot_stats_csv files = Ok A →
  table parse_cell org_daily_executions_csv files = Ok B →
  can_mkdir files →
  sorted (unique (row_period A <$> rows A)) = Some <$> ps →
  writable files ps →
  run parse_cell files =
    (Ok (), {| fs := write_months A B ps (<[monthly_dir := Dir]> files);
               stdout := printed A B ps |}).
Proof.
  intros HA HB Hcan Hps Hw.
  destruct (table_column_index _ _ _ _ HA) as [jA HjA].
  destruct (table_column_index _ _ _ _ HB) as [jB HjB].
  apply table_Ok in HA as (A0 & HA0 & HA).
  apply table_Ok in HB as (B0 & HB0 & HB).
  unfold run, script.
  erewrite bind_run by (rewrite read_csv_state, HA0; done).
  erewrite bind_run by (rewrite read_csv_state, HB0; done).
  erewrite bind_run by (unfold lift; rewrite HA; done).
  erewrite bind_run by (unfold lift; rewrite HB; done).
  erewrite bind_run by by apply mkdir_run.
  erewrite bind_run
    by (unfold lift; rewrite (periods_row_period _ _ HjA); done).
  erewrite bind_run by done.
  rewrite Hps.
  erewrite bind_run
    by (apply for_each_run; [eauto..|by apply writable_insert_monthly_dir]).
  unfold print, printed. simpl. done.
Qed.

(** A run that ends well went the way described above. *)
Lemma run_Ok_inv (files : gmap string node) (w : World) :
  run parse_cell files = (Ok (), w) →
  ∃ A B ps,
    table parse_cell box_plot_stats_csv files = Ok A
    ∧ table parse_cell org_daily_executions_csv files = Ok B
    ∧ can_mkdir files
    ∧ sorted (unique (row_period A <$> rows A)) = Some <$> ps
    ∧ writable files ps
    ∧ w = {| fs := write_months A B ps (<[monthly_dir := Dir]> files);
             stdout := printed A B ps |}.
Proof.
  intros Hrun. pose proof Hrun as H. unfold run, script in H.
  apply bind_Ok in H as (A0 & w1 & HA0 & H).
  rewrite read_csv_state in HA0. injection HA0 as HA0 <-.
  apply bind_Ok in H as (B0 & w2 & HB0 & H).
  rewrite read_csv_state in HB0. injection HB0 as HB0 <-.
  apply bind_Ok in H as (A & w3 & [HA ->]%lift_Ok & H).
  apply bind_Ok in H as (B & w4 & [HB ->]%lift_Ok & H).
  apply bind_Ok in H as ([] & w5 & Hmkdir & H).
  pose proof (mkdir_Ok _ _ Hmkdir) as Hcan.
  rewrite (mkdir_run _ Hcan) in Hmkdir. injection Hmkdir as <-.
  destruct (normalize_column_index _ _ _ HA) as [jA HjA].
  destruct (normalize_column_index _ _ _ HB) as [jB HjB].
  apply bind_Ok in H as (months & w6 & [Hmonths ->]%lift_Ok & H).
  rewrite (periods_row_period _ _ HjA) in Hmonths.
  injection Hmonths as <-.
  apply bind_Ok in H as ([] & w7 & Hprint & H).
  unfold print in Hprint. injection Hprint as <-.
  apply bind_Ok in H as ([] & w8 & Hloop & H).
  apply for_each_Ok in Hloop as (ps & Hps & Hw); [|eauto..].
  simpl in Hw, Hcan. rewrite writable_insert_monthly_dir in Hw.
  assert (table parse_cell box_plot_stats_csv files = Ok A) as HtA
    by (unfold table; simpl in *; by rewrite HA0).
  assert (table parse_cell org_daily_executions_csv files = Ok B) as HtB
    by (unfold table; simpl in *; by rewrite HB0).
  exists A, B, ps. split_and!; [done..|].
  rewrite (run_Ok_intro _ _ _ _ HtA HtB Hcan Hps Hw) in Hrun.
  by injection Hrun.
Qed.
End run_facts.


(** ** The shape of the file names *)




Example strftime_Ym_2024_03 :
  strftime_Ym (to_period_M (mkTimestamp 2024 3 9 0 0 0 0)) = "2024-03".
Proof. reflexivity. Qed.

(** ** Rows of a month *)

Lemma elem_of_month (df : DataFrame) (p : Z) (r : list value) :
  r ∈ rows (month df p) ↔ row_period df r = Some p ∧ r ∈ rows df.
Proof.
  unfold month. simpl.
  apply (list_elem_of_filter (λ r, row_period df r = Some p)).
Qed.

Lemma month_sublist (df : DataFrame) (p : Z) :
  rows (month df p) `sublist_of` rows df.
Proof. unfold month. simpl. apply sublist_filter. Qed.

Lemma write_months_lookup_ne (A B : DataFrame) (ps : list Z)
    (m : gmap string node) (path : string) :
  (∀ p, p ∈ ps → path ≠ box_plot_path (strftime_Ym p)
                 ∧ path ≠ org_data_path (strftime_Ym p)) →
  write_months A B ps m !! path = m !! path.
Proof.
  unfold write_months. revert m.
  induction ps as [|p ps IH]; intros m Hpath; simpl; [done|].
  rewrite IH by (intros q Hq; apply Hpath, elem_of_cons; auto).
  rewrite write_month_lookup.
  destruct (Hpath p) as [Hb Ho]; [apply elem_of_cons; auto|].
  by rewrite !decide_False.
Qed.

(** ** Tables and the files they are read from *)


Section table_facts.
Variable parse_cell : string → option Timestamp.

Lemma table_ext (path : string) (files files' : gmap string node) :
  files' !! path = files !! path →
  table parse_cell path files' = table parse_cell path files.
Proof.
  intros Heq. unfold table, read_csv. cbn [fs]. rewrite Heq.
  by destruct (files !! path) as [[c|]|].
Qed.


(** What a run that ends well leaves, in terms of its two tables and of
    the sequence of its loop. *)
Lemma run_Ok_fs (files : gmap string node) (w : World) (A B : DataFrame)
    (ps : list Z) :
  run parse_cell files = (Ok (), w) →
  table parse_cell box_plot_stats_csv files = Ok A →
  table parse_cell org_daily_executions_csv files = Ok B →
  sorted (unique (row_period A <$> rows A)) = Some <$> ps →
  w = {| fs := write_months A B ps (<[monthly_dir := Dir]> files);
         stdout := printed A B ps |}
  ∧ can_mkdir files ∧ writable files ps.
Proof.
  intros (A' & B' & ps' & HA' & HB' & Hcan & Hps' & Hw & ->)%run_Ok_inv
    HA HB Hps.
  rewrite HA in HA'. rewrite HB in HB'. simplify_eq.
  rewrite Hps in Hps'. apply (inj (fmap Some)) in Hps' as <-. done.
Qed.
End table_facts.


Lemma one_pair_per_period_write_months (A B : DataFrame) (ps : list Z)
    (files : gmap string node) :
  one_pair_per_period A B ps files
    (write_months A B ps (<[monthly_dir := Dir]> files)).
Proof.
  split.
  - intros p Hp. split.
    + apply write_months_lookup_box. auto.
    + apply write_months_lookup_org. auto.
  - intros path Hdir Hpath.
    rewrite write_months_lookup_ne by done. by apply lookup_insert_ne.
Qed.



(** ** Counting the rows of the months *)





(** ** Order and repetition *)

Lemma sublist_lookup {X} (k l : list X) (i : nat) (x : X) :
  k `sublist_of` l → k !! i = Some x → ∃ i', l !! i' = Some x.
Proof.
  intros Hsub Hx. apply list_elem_of_lookup.
  eapply elem_of_sublist; [|done]. apply list_elem_of_lookup. eauto.
Qed.

Lemma sublist_lookup_order {X} (k l : list X) :
  k `sublist_of` l →
  ∀ i j x y, (i < j)%nat → k !! i = Some x → k !! j = Some y →
    ∃ i' j', (i' < j')%nat ∧ l !! i' = Some x ∧ l !! j' = Some y.
Proof.
  induction 1 as [|z k l Hsub IH|z k l Hsub IH]; intros i j x y Hij Hx Hy.
  - done.
  - destruct j as [|j]; [lia|]. destruct i as [|i]; simplify_eq/=.
    + destruct (sublist_lookup _ _ _ _ Hsub Hy) as [j' Hj'].
      exists 0%nat, (S j'). split_and!; [lia|done..].
    + destruct (IH i j x y) as (i' & j' & ? & ? & ?); [lia|done..|].
      exists (S i'), (S j'). split_and!; [lia|done..].
  - destruct (IH i j x y) as (i' & j' & ? & ? & ?); [done..|].
    exists (S i'), (S j'). split_and!; [lia|done..].
Qed.

Lemma written_in_order_month (df : DataFrame) (path : string) (p : Z)
    (after : gmap string node) :
  after !! path = Some (File (render_frame (month df p))) →
  written_in_order df path p after.
Proof.
  intros Hfile. split_and!; [done..|apply month_sublist|].
  apply sublist_lookup_order, month_sublist.
Qed.

(** Writing the months over what the same writes have left changes
    nothing. *)
Lemma write_months_idemp (A B : DataFrame) (ps : list Z)
    (m : gmap string node) :
  write_months A B ps (write_months A B ps m) = write_months A B ps m.
Proof.
  rewrite (write_months_union _ _ _ (write_months A B ps m)).
  rewrite (write_months_union _ _ _ m).
  by rewrite (assoc_L (∪)), (idemp_L (∪)).
Qed.

(** ** What is written for a row *)





(** * The claims *)

Section claims.
Variable parse_cell : string → option Timestamp.



(** C3 (filtering of the org table).  Let both tables load, let the
    directory be there or creatable, let every row of the box-plot table
    have a date, with [ps] their sorted periods, and let no directory sit
    at a path to be written.  Then the run ends well, whatever the
    periods of the org table are; and a row of the org table whose period
    is none of [ps] is in none of the [org_data_] files, while the paths
    that bear its own period are left untouched. *)
Theorem org_rows_outside_dropped (files : gmap string node)
    (A B : DataFrame) (ps : list Z) :
  table parse_cell box_plot_stats_csv files = Ok A →
  table parse_cell org_daily_executions_csv files = Ok B →
  can_mkdir files →
  sorted (unique (row_period A <$> rows A)) = Some <$> ps →
  writable files ps →
  ∃ w, run parse_cell files = (Ok (), w)
       ∧ one_pair_per_period A B ps files (fs w)
       ∧ ∀ r, r ∈ rows B → row_period B r ∉ (Some <$> ps : list (option Z)) →
           in_no_file B ps files (fs w) r.
Proof.
  intros HA HB Hcan Hps Hw. eexists. split; [by apply run_Ok_intro|].
  simpl. split; [apply one_pair_per_period_write_months|].
  intros r Hr Hout. split.
  - intros p Hp [Hrp _]%elem_of_month. destruct Hout.
    rewrite Hrp. apply list_elem_of_fmap. eauto.
  - intros q Hq.
    assert (q ∉ ps) as Hqps.
    { intros Hin. destruct Hout. rewrite Hq. apply list_elem_of_fmap. eauto. }
    assert (∀ p, p ∈ ps → p ≠ q) as Hne by (intros p Hin ->; done).
    split.
    + rewrite write_months_lookup_ne.
      * apply lookup_insert_ne. intros Heq. apply monthly_dir_not_output.
        rewrite Heq. unfold output_path. eauto.
      * intros p Hin. split.
        -- intros Heq. by apply symmetry, box_plot_path_org_data_path in Heq.
        -- intros Heq%org_data_path_inj%strftime_Ym_inj.
           by apply (Hne p).
    + rewrite write_months_lookup_ne.
      * apply lookup_insert_ne. intros Heq. apply monthly_dir_not_output.
        rewrite Heq. unfold output_path. eauto.
      * intros p Hin. split.
        -- intros Heq%box_plot_path_inj%strftime_Ym_inj.
           by apply (Hne p).
        -- apply box_plot_path_org_data_path.
Qed.


(** C5 (idempotence).  A run that ends well, started again from the file
    system it has left, ends well and leaves the very same file system
    and the same output: every file is written again with the content
    it has. *)
Theorem rerun_identical (files : gmap string node) (w : World) :
  run parse_cell files = (Ok (), w) →
  run parse_cell (fs w) = (Ok (), w).
Proof.
  intros (A & B & ps & HA & HB & Hcan & Hps & Hw & ->)%run_Ok_inv. simpl.
  set (W := write_months A B ps (<[monthly_dir := Dir]> files)).
  assert (W !! monthly_dir = Some Dir) as Hdir.
  { unfold W. rewrite write_months_lookup_other
      by apply monthly_dir_not_output.
    apply lookup_insert_eq. }
  assert (∀ path, ¬ output_path path → path ≠ monthly_dir →
            W !! path = files !! path) as Hin.
  { intros path Hout Hne. unfold W.
    rewrite write_months_lookup_other by done.
    by apply lookup_insert_ne. }
  rewrite (run_Ok_intro parse_cell W A B ps).
  - rewrite insert_id by done. unfold W. by rewrite write_months_idemp.
  - rewrite <-HA. apply table_ext, Hin; [|done].
    apply box_plot_stats_csv_not_output.
  - rewrite <-HB. apply table_ext, Hin; [|done].
    apply org_daily_executions_csv_not_output.
  - by left.
  - done.
  - intros p Hp. unfold W.
    rewrite write_months_lookup_box, write_months_lookup_org by auto.
    done.
Qed.

(** C6 (row-order preservation).  In a run that ends well, the file of
    either table for a period of the loop holds the rows of that month,
    one record per row in the order of the rows, and the rows of the
    month are a subsequence of the rows of the table: any two of them
    stand in the table in the order they have in the file. *)
Theorem row_order_preserved (files : gmap string node) (w : World)
    (A B : DataFrame) (ps : list Z) (p : Z) :
  run parse_cell files = (Ok (), w) →
  table parse_cell box_plot_stats_csv files = Ok A →
  table parse_cell org_daily_executions_csv files = Ok B →
  sorted (unique (row_period A <$> rows A)) = Some <$> ps →
  p ∈ ps →
  written_in_order A (box_plot_path (strftime_Ym p)) p (fs w)
  ∧ written_in_order B (org_data_path (strftime_Ym p)) p (fs w).
Proof.
  intros Hrun HA HB Hps Hp.
  destruct (run_Ok_fs _ _ _ _ _ _ Hrun HA HB Hps) as (-> & _ & _).
  split; apply written_in_order_month.
  - apply write_months_lookup_box. auto.
  - apply write_months_lookup_org. auto.
Qed.

(** C7 (empty input).  Let [public/box_plot_stats.csv] hold a header of
    distinct names with the date column and no record, let the org table
    load, whatever rows it has, and let the directory be there or
    creatable.  Then the box-plot table is empty, the sequence of periods
    is empty, and the run ends well having made the directory and nothing
    else: it announces zero months, and every file there is after the run
    was there, the same, before. *)
Theorem empty_box_plot (files : gmap string node) (header : list string)
    (B : DataFrame) :
  files !! box_plot_stats_csv
    = Some (File {| csv_header := header; csv_records := [] |}) →
  NoDup header →
  "execution_date" ∈ header →
  table parse_cell org_daily_executions_csv files = Ok B →
  can_mkdir files →
  let A := {| columns := header; rows := [] |} in
  table parse_cell box_plot_stats_csv files = Ok A
  ∧ sorted (unique (row_period A <$> rows A)) = []
  ∧ ∃ w, run parse_cell files = (Ok (), w)
         ∧ stdout w = ["Splitting data into 0 months..."; "Done!"]
         ∧ fs w = <[monthly_dir := Dir]> files
         ∧ ∀ path c, fs w !! path = Some (File c) →
                     files !! path = Some (File c).
Proof.
  intros Hfile Hnodup Hcol HB Hcan A.
  assert (table parse_cell box_plot_stats_csv files = Ok A) as HA.
  { destruct (list_find_elem_of (λ c, c = "execution_date") header
                "execution_date" Hcol eq_refl) as [[j c] Hj].
    unfold table, read_csv. cbn [fs]. rewrite Hfile. simpl.
    unfold parse_csv, well_formed. simpl.
    rewrite bool_decide_eq_true_2 by done. simpl.
    unfold normalize, getitem, setitem, column_index. simpl.
    rewrite Hj. done. }
  split; [done|]. split; [done|].
  eexists. split.
  { apply (run_Ok_intro parse_cell files A B []); [done..|].
    intros p Hp. by apply elem_of_nil in Hp. }
  simpl. split_and!; [done..|].
  intros path c Hpath. rewrite lookup_insert_ne in Hpath; [done|].
  intros <-. by rewrite lookup_insert_eq in Hpath.
Qed.


End claims.

(** ** The inputs the properties are tried on *)

Lemma scenario_run :
  run ISO8601.parse Scenario.files = (Ok (), Scenario.world).
Proof. vm_compute. reflexivity. Qed.

Lemma scenario_box_plot_df :
  table ISO8601.parse box_plot_stats_csv Scenario.files
  = Ok Scenario.box_plot_df.
Proof. vm_compute. reflexivity. Qed.

Lemma scenario_org_data_df :
  table ISO8601.parse org_daily_executions_csv Scenario.files
  = Ok Scenario.org_data_df.
Proof. vm_compute. reflexivity. Qed.

Lemma scenario_months :
  sorted (unique (row_period Scenario.box_plot_df <$> rows Scenario.box_plot_df))
  = Some <$> Scenario.months.
Proof. vm_compute. reflexivity. Qed.

Lemma scenario_can_mkdir : can_mkdir Scenario.files.
Proof. right. split; vm_compute; reflexivity. Qed.

Lemma scenario_writable : writable Scenario.files Scenario.months.
Proof.
  intros p Hp. unfold Scenario.months in Hp.
  apply elem_of_cons in Hp as [->|Hp]; [split; vm_compute; congruence|].
  apply elem_of_cons in Hp as [->|Hp]; [split; vm_compute; congruence|].
  by apply elem_of_nil in Hp.
Qed.


(** * The claims on given inputs *)

(** C8 (scenario).  On the box-plot rows dated 2024-01-05, 2024-01-20 and
    2024-02-10 and the org rows dated 2024-01-05 and 2024-03-01 the run
    ends well; being started with the two source files and their
    directory only, it ends with these, the output directory and four
    files: [box_plot_2024-01.csv] with two records, [box_plot_2024-02.csv]
    with one, [org_data_2024-01.csv] with one and [org_data_2024-02.csv]
    with its header and no record; there is no file for 2024-03. *)
Theorem scenario_files :
  run ISO8601.parse Scenario.files = (Ok (), Scenario.world)
  ∧ dom Scenario.files
    = {[ "public"; "public/box_plot_stats.csv";
         "public/org_daily_executions.csv" ]}
  ∧ dom (fs Scenario.world)
    = {[ "public"; "public/box_plot_stats.csv";
         "public/org_daily_executions.csv"; "public/monthly";
         "public/monthly/box_plot_2024-01.csv";
         "public/monthly/box_plot_2024-02.csv";
         "public/monthly/org_data_2024-01.csv";
         "public/monthly/org_data_2024-02.csv" ]}
  ∧ fs Scenario.world !! "public/monthly/box_plot_2024-01.csv"
    = Some (File {| csv_header := ["execution_date"; "median"];
                    csv_records := [["2024-01-05"; "10"];
                                    ["2024-01-20"; "12"]] |})
  ∧ fs Scenario.world !! "public/monthly/box_plot_2024-02.csv"
    = Some (File {| csv_header := ["execution_date"; "median"];
                    csv_records := [["2024-02-10"; "11"]] |})
  ∧ fs Scenario.world !! "public/monthly/org_data_2024-01.csv"
    = Some (File {| csv_header := ["org"; "execution_date"];
                    csv_records := [["acme"; "2024-01-05"]] |})
  ∧ fs Scenario.world !! "public/monthly/org_data_2024-02.csv"
    = Some (File {| csv_header := ["org"; "execution_date"];
                    csv_records := [] |})
  ∧ fs Scenario.world !! "public/monthly/box_plot_2024-03.csv" = None
  ∧ fs Scenario.world !! "public/monthly/org_data_2024-03.csv" = None.
Proof. split_and!; vm_compute; reflexivity. Qed.


(** ** The claims at the scenario *)




Lemma row_order_preserved_witness :
  run ISO8601.parse Scenario.files = (Ok (), Scenario.world)
  ∧ table ISO8601.parse box_plot_stats_csv Scenario.files
    = Ok Scenario.box_plot_df
  ∧ table ISO8601.parse org_daily_executions_csv Scenario.files
    = Ok Scenario.org_data_df
  ∧ sorted (unique (row_period Scenario.box_plot_df
                      <$> rows Scenario.box_plot_df))
    = Some <$> Scenario.months
  ∧ 648 ∈ Scenario.months
  ∧ (written_in_order Scenario.box_plot_df
       (box_plot_path (strftime_Ym 648)) 648 (fs Scenario.world)
     ∧ written_in_order Scenario.org_data_df
         (org_data_path (strftime_Ym 648)) 648 (fs Scenario.world)).
Proof.
  assert (648 ∈ Scenario.months) as Hp by apply list_elem_of_here.
  exact (conj scenario_run (conj scenario_box_plot_df
    (conj scenario_org_data_df (conj scenario_months (conj Hp
      (row_order_preserved ISO8601.parse _ _ _ _ _ _ scenario_run
         scenario_box_plot_df scenario_org_data_df scenario_months Hp)))))).
Defined.

Lemma org_rows_outside_dropped_witness :
  table ISO8601.parse box_plot_stats_csv Scenario.files
    = Ok Scenario.box_plot_df
  ∧ table ISO8601.parse org_daily_executions_csv Scenario.files
    = Ok Scenario.org_data_df
  ∧ can_mkdir Scenario.files
  ∧ sorted (unique (row_period Scenario.box_plot_df
                      <$> rows Scenario.box_plot_df))
    = Some <$> Scenario.months
  ∧ writable Scenario.files Scenario.months
  ∧ ∃ w, run ISO8601.parse Scenario.files = (Ok (), w)
         ∧ one_pair_per_period Scenario.box_plot_df Scenario.org_data_df
             Scenario.months Scenario.files (fs w)
         ∧ ∀ r, r ∈ rows Scenario.org_data_df →
             row_period Scenario.org_data_df r
               ∉ (Some <$> Scenario.months : list (option Z)) →
             in_no_file Scenario.org_data_df Scenario.months
               Scenario.files (fs w) r.
Proof.
  exact (conj scenario_box_plot_df (conj scenario_org_data_df
    (conj scenario_can_mkdir (conj scenario_months (conj scenario_writable
      (org_rows_outside_dropped ISO8601.parse _ _ _ _ scenario_box_plot_df
         scenario_org_data_df scenario_can_mkdir scenario_months
         scenario_writable)))))).
Defined.

Lemma rerun_identical_witness :
  run ISO8601.parse Scenario.files = (Ok (), Scenario.world)
  ∧ run ISO8601.parse (fs Scenario.world) = (Ok (), Scenario.world).
Proof.
  exact (conj scenario_run
    (rerun_identical ISO8601.parse _ _ scenario_run)).
Defined.

(** ** The claims at the other inputs *)

Lemma empty_box_plot_witness :
  EmptyBoxPlot.files !! box_plot_stats_csv
    = Some (File {| csv_header := EmptyBoxPlot.header; csv_records := [] |})
  ∧ NoDup EmptyBoxPlot.header
  ∧ "execution_date" ∈ EmptyBoxPlot.header
  ∧ table ISO8601.parse org_daily_executions_csv EmptyBoxPlot.files
    = Ok Scenario.org_data_df
  ∧ can_mkdir EmptyBoxPlot.files
  ∧ (let A := {| columns := EmptyBoxPlot.header; rows := [] |} in
     table ISO8601.parse box_plot_stats_csv EmptyBoxPlot.files = Ok A
     ∧ sorted (unique (row_period A <$> rows A)) = []
     ∧ ∃ w, run ISO8601.parse EmptyBoxPlot.files = (Ok (), w)
            ∧ stdout w = ["Splitting data into 0 months..."; "Done!"]
            ∧ fs w = <[monthly_dir := Dir]> EmptyBoxPlot.files
            ∧ ∀ path c, fs w !! path = Some (File c) →
                        EmptyBoxPlot.files !! path = Some (File c)).
Proof.
  assert (EmptyBoxPlot.files !! box_plot_stats_csv
          = Some (File {| csv_header := EmptyBoxPlot.header;
                          csv_records := [] |}))
    as Hfile by (vm_compute; reflexivity).
  assert (NoDup EmptyBoxPlot.header) as Hnodup
    by (apply (bool_decide_eq_true_1 (NoDup EmptyBoxPlot.header));
        vm_compute; reflexivity).
  assert ("execution_date" ∈ EmptyBoxPlot.header) as Hcol
    by apply list_elem_of_here.
  assert (table ISO8601.parse org_daily_executions_csv EmptyBoxPlot.files
          = Ok Scenario.org_data_df) as HB by (vm_compute; reflexivity).
  assert (can_mkdir EmptyBoxPlot.files) as Hcan
    by (right; split; vm_compute; reflexivity).
  exact (conj Hfile (conj Hnodup (conj Hcol (conj HB (conj Hcan
    (empty_box_plot ISO8601.parse _ _ _ Hfile Hnodup Hcol HB Hcan)))))).
Defined.




(** * Further properties: every outcome of a run *)

(** ** Every outcome of a step *)

Lemma bind_cases {A B} (m : M A) (f : A → M B) (w w' : World)
    (res : result B) :
  (m ≫= f) w = (res, w') →
  (∃ e, m w = (Raise e, w') ∧ res = Raise e)
  ∨ (∃ a w1, m w = (Ok a, w1) ∧ f a w1 = (res, w')).
Proof.
  unfold mbind, M_bind. destruct (m w) as [[a|e] w1].
  - right. eauto.
  - intros [= <- <-]. left. eauto.
Qed.

Lemma kept_refl (m : gmap string node) : kept m m.
Proof. intros path. done. Qed.

Lemma kept_trans (m1 m2 m3 : gmap string node) :
  kept m1 m2 → kept m2 m3 → kept m1 m3.
Proof.
  intros H12 H23 path.
  destruct (H12 path) as (Ha & Hb & Hc), (H23 path) as (Ha' & Hb' & Hc').
  split_and!.
  - intros Hout. by rewrite Ha', Ha.
  - auto.
  - by rewrite Hc.
Qed.

Lemma kept_insert_file (m : gmap string node) (path : string) (c : csv) :
  output_path path → m !! path ≠ Some Dir →
  kept m (<[path := File c]> m).
Proof.
  intros Hout Hdir path'. destruct (decide (path = path')) as [<-|Hne].
  - rewrite lookup_insert_eq. split_and!; [done|eauto|]. split; done.
  - rewrite lookup_insert_ne by done. done.
Qed.

Lemma box_plot_path_output (s : string) : output_path (box_plot_path s).
Proof. exists s. by left. Qed.
Lemma org_data_path_output (s : string) : output_path (org_data_path s).
Proof. exists s. by right. Qed.

Section loop_outcomes.
Variables A B : DataFrame.
Hypothesis HA : is_Some (column_index "execution_date" A).
Hypothesis HB : is_Some (column_index "execution_date" B).

(** One turn of the loop, whatever it meets. *)
Lemma split_month_Some (p : Z) (w : World) :
  split_month A B (Some p) w =
    match fs w !! box_plot_path (strftime_Ym p) with
    | Some Dir =>
        (Raise (IsADirectoryError (box_plot_path (strftime_Ym p))), w)
    | _ =>
        match fs w !! org_data_path (strftime_Ym p) with
        | Some Dir =>
            (Raise (IsADirectoryError (org_data_path (strftime_Ym p))),
             {| fs := <[box_plot_path (strftime_Ym p) :=
                          File (render_frame (month A p))]> (fs w);
                stdout := stdout w |})
        | _ =>
            (Ok (), {| fs := write_month A B (fs w) p;
                       stdout := stdout w
                         ++ [progress_line (strftime_Ym p)
                               (month A p) (month B p)] |})
        end
    end.
Proof.
  destruct HA as [jA HjA], HB as [jB HjB].
  unfold split_month. simpl. unfold mbind, M_bind, lift.
  rewrite (month_rows_month _ _ _ HjA), (month_rows_month _ _ _ HjB).
  unfold to_csv at 1.
  destruct (fs w !! box_plot_path (strftime_Ym p)) as [[c|]|] eqn:Hb;
    [|done|]; simpl; unfold to_csv, print; simpl;
    rewrite lookup_insert_ne by apply box_plot_path_org_data_path;
    destruct (fs w !! org_data_path (strftime_Ym p)) as [[c'|]|] eqn:Ho;
    done.
Qed.

Lemma split_month_cases (period : option Z) (w w' : World)
    (res : result ()) :
  split_month A B period w = (res, w') →
  kept (fs w) (fs w')
  ∧ (res = Ok ()
     ∨ res = Raise (ValueError "NaTType does not support strftime")
     ∨ ∃ path, output_path path ∧ res = Raise (IsADirectoryError path)
               ∧ fs w' !! path = Some Dir).
Proof.
  destruct period as [p|].
  - rewrite split_month_Some.
    destruct (fs w !! box_plot_path (strftime_Ym p)) as [nb|] eqn:Hb.
    + destruct nb as [cb|].
      * destruct (fs w !! org_data_path (strftime_Ym p)) as [[co|]|] eqn:Ho;
          intros [= <- <-]; simpl.
        -- split; [|by left]. unfold write_month.
           eapply kept_trans; apply kept_insert_file;
             [apply box_plot_path_output|by rewrite Hb
             |apply org_data_path_output|].
           rewrite lookup_insert_ne by apply box_plot_path_org_data_path.
           by rewrite Ho.
        -- split.
           ++ apply kept_insert_file;
                [apply box_plot_path_output|by rewrite Hb].
           ++ right. right. eexists. split; [apply org_data_path_output|].
              split; [done|].
              by rewrite lookup_insert_ne
                by apply box_plot_path_org_data_path.
        -- split; [|by left]. unfold write_month.
           eapply kept_trans; apply kept_insert_file;
             [apply box_plot_path_output|by rewrite Hb
             |apply org_data_path_output|].
           rewrite lookup_insert_ne by apply box_plot_path_org_data_path.
           by rewrite Ho.
      * intros [= <- <-]. split; [apply kept_refl|].
        right. right. eexists. split; [apply box_plot_path_output|done].
    + destruct (fs w !! org_data_path (strftime_Ym p)) as [[co|]|] eqn:Ho;
        intros [= <- <-]; simpl.
      * split; [|by left]. unfold write_month.
        eapply kept_trans; apply kept_insert_file;
          [apply box_plot_path_output|by rewrite Hb
          |apply org_data_path_output|].
        rewrite lookup_insert_ne by apply box_plot_path_org_data_path.
        by rewrite Ho.
      * split.
        -- apply kept_insert_file;
             [apply box_plot_path_output|by rewrite Hb].
        -- right. right. eexists. split; [apply org_data_path_output|].
           split; [done|].
           by rewrite lookup_insert_ne
             by apply box_plot_path_org_data_path.
      * split; [|by left]. unfold write_month.
        eapply kept_trans; apply kept_insert_file;
          [apply box_plot_path_output|by rewrite Hb
          |apply org_data_path_output|].
        rewrite lookup_insert_ne by apply box_plot_path_org_data_path.
        by rewrite Ho.
  - intros [= <- <-]. split; [apply kept_refl|]. right. by left.
Qed.

(** The loop, whatever it meets. *)
Lemma for_each_cases (l : list (option Z)) (w w' : World)
    (res : result ()) :
  for_each l (split_month A B) w = (res, w') →
  kept (fs w) (fs w')
  ∧ (res = Ok ()
     ∨ res = Raise (ValueError "NaTType does not support strftime")
     ∨ ∃ path, output_path path ∧ res = Raise (IsADirectoryError path)
               ∧ fs w' !! path = Some Dir).
Proof.
  revert w. induction l as [|period l IH]; intros w; simpl.
  - intros [= <- <-]. split; [apply kept_refl|by left].
  - intros [(e & Hbody & ->)|([] & w1 & Hbody & Hrest)]%bind_cases.
    + destruct (split_month_cases _ _ _ _ Hbody) as [Hkept Hres].
      split; [done|]. destruct Hres as [?|Hres]; [done|by right].
    + destruct (split_month_cases _ _ _ _ Hbody) as [Hkept _].
      destruct (IH _ Hrest) as [Hkept' Hres].
      split; [by eapply kept_trans|done].
Qed.
End loop_outcomes.

Lemma for_each_app {X} (l1 l2 : list X) (body : X → M ()) (w : World) :
  for_each (l1 ++ l2) body w = (for_each l1 body;; for_each l2 body) w.
Proof.
  revert w. induction l1 as [|x l1 IH]; intros w; simpl; [done|].
  unfold mbind, M_bind. destruct (body x w) as [[[]|e] w1]; [|done].
  rewrite IH. done.
Qed.

Lemma mkdir_Raise (w w' : World) (e : error) :
  mkdir "public" monthly_dir w = (Raise e, w') →
  w' = w
  ∧ ((e = FileExistsError monthly_dir
      ∧ ∃ c, fs w !! monthly_dir = Some (File c))
     ∨ (e = FileNotFoundError monthly_dir ∧ fs w !! monthly_dir = None)).
Proof.
  unfold mkdir.
  destruct (fs w !! monthly_dir) as [[c|]|]; [|done|].
  - intros [= <- <-]. split; [done|]. left. eauto.
  - destruct (fs w !! "public") as [[c|]|]; [|done|];
      intros [= <- <-]; (split; [done|]); by right.
Qed.

Section run_outcomes.
Variable parse_cell : string → option Timestamp.

(** The run up to the loop: once both tables are there and the directory
    is made, what is left is the loop and the last line. *)
Lemma run_loop (files : gmap string node) (A B : DataFrame) :
  table parse_cell box_plot_stats_csv files = Ok A →
  table parse_cell org_daily_executions_csv files = Ok B →
  can_mkdir files →
  run parse_cell files =
    (for_each (sorted (unique (row_period A <$> rows A))) (split_month A B);;
     print "Done!")
      {| fs := <[monthly_dir := Dir]> files; stdout := [announced A] |}.
Proof.
  intros HA HB Hcan.
  destruct (table_column_index _ _ _ _ HA) as [jA HjA].
  apply table_Ok in HA as (A0 & HA0 & HA).
  apply table_Ok in HB as (B0 & HB0 & HB).
  unfold run, script.
  erewrite bind_run by (rewrite read_csv_state, HA0; done).
  erewrite bind_run by (rewrite read_csv_state, HB0; done).
  erewrite bind_run by (unfold lift; rewrite HA; done).
  erewrite bind_run by (unfold lift; rewrite HB; done).
  erewrite bind_run by by apply mkdir_run.
  erewrite bind_run
    by (unfold lift; rewrite (periods_row_period _ _ HjA); done).
  erewrite bind_run by done.
  done.
Qed.

(** A run that does not get to the loop raises and leaves the world as
    it was. *)
Lemma run_before_loop (files : gmap string node) (res : result ())
    (w : World) :
  run parse_cell files = (res, w) →
  (∃ e, res = Raise e ∧ w = initial files)
  ∨ (∃ A B, table parse_cell box_plot_stats_csv files = Ok A
            ∧ table parse_cell org_daily_executions_csv files = Ok B
            ∧ can_mkdir files).
Proof.
  intros Hrun. pose proof Hrun as H. unfold run, script in H.
  apply bind_cases in H as [(e & HA0 & ->)|(A0 & w1 & HA0 & H)];
    rewrite read_csv_state in HA0; injection HA0 as HA0 <-;
    [left; by exists e|].
  apply bind_cases in H as [(e & HB0 & ->)|(B0 & w2 & HB0 & H)];
    rewrite read_csv_state in HB0; injection HB0 as HB0 <-;
    [left; by exists e|].
  apply bind_cases in H as [(e & HA & ->)|(A & w3 & HA & H)];
    unfold lift in HA; injection HA as HA <-; [left; by exists e|].
  apply bind_cases in H as [(e & HB & ->)|(B & w4 & HB & H)];
    unfold lift in HB; injection HB as HB <-; [left; by exists e|].
  apply bind_cases in H as [(e & Hmkdir & ->)|([] & w5 & Hmkdir & H)].
  { apply mkdir_Raise in Hmkdir as [-> _]. left. by exists e. }
  apply mkdir_Ok in Hmkdir. right. exists A, B.
  split_and!; [| |done]; unfold table; simpl in *.
  - by rewrite HA0.
  - by rewrite HB0.
Qed.

(** The outcome of a run that gets to the loop. *)
Lemma run_in_loop (files : gmap string node) (A B : DataFrame)
    (res : result ()) (w : World) :
  table parse_cell box_plot_stats_csv files = Ok A →
  table parse_cell org_daily_executions_csv files = Ok B →
  can_mkdir files →
  run parse_cell files = (res, w) →
  kept (<[monthly_dir := Dir]> files) (fs w)
  ∧ (res = Ok ()
     ∨ res = Raise (ValueError "NaTType does not support strftime")
     ∨ ∃ path, output_path path ∧ res = Raise (IsADirectoryError path)
               ∧ fs w !! path = Some Dir).
Proof.
  intros HA HB Hcan Hrun. rewrite (run_loop _ _ _ HA HB Hcan) in Hrun.
  pose proof (table_column_index _ _ _ _ HA) as HjA.
  pose proof (table_column_index _ _ _ _ HB) as HjB.
  apply bind_cases in Hrun as [(e & Hloop & ->)|([] & w1 & Hloop & Hdone)].
  - destruct (for_each_cases A B HjA HjB _ _ _ _ Hloop) as [Hkept Hres].
    split; [done|]. destruct Hres as [?|Hres]; [done|by right].
  - destruct (for_each_cases A B HjA HjB _ _ _ _ Hloop) as [Hkept _].
    unfold print in Hdone. injection Hdone as <- <-. split; [done|by left].
Qed.
End run_outcomes.

(** ** What no run does *)

Section never.
Variable parse_cell : string → option Timestamp.

(** X1.  Whatever the outcome of a run, ended well or raised at any
    point, a path that is neither the output directory nor one of the
    paths [box_plot_*.csv] and [org_data_*.csv] in it holds after the run
    what it held before; so the two source files are never changed. *)
Theorem run_leaves_other_paths (files : gmap string node) (path : string) :
  path ≠ monthly_dir → ¬ output_path path →
  fs (run parse_cell files).2 !! path = files !! path.
Proof.
  intros Hdir Hout.
  destruct (run parse_cell files) as [res w] eqn:Hrun. simpl.
  destruct (run_before_loop _ _ _ _ Hrun)
    as [(e & -> & ->)|(A & B & HA & HB & Hcan)]; [done|].
  destruct (run_in_loop _ _ _ _ _ _ HA HB Hcan Hrun) as [Hkept _].
  destruct (Hkept path) as (Heq & _ & _). rewrite Heq by done.
  by apply lookup_insert_ne.
Qed.

(** X2.  Whatever the outcome of a run, no path is removed and no
    directory is replaced: what was there before the run is there after
    it, and a directory is still a directory. *)
Theorem run_removes_nothing (files : gmap string node) (path : string) :
  (is_Some (files !! path) → is_Some (fs (run parse_cell files).2 !! path))
  ∧ (files !! path = Some Dir →
     fs (run parse_cell files).2 !! path = Some Dir).
Proof.
  destruct (run parse_cell files) as [res w] eqn:Hrun. simpl.
  destruct (run_before_loop _ _ _ _ Hrun)
    as [(e & -> & ->)|(A & B & HA & HB & Hcan)]; [done|].
  destruct (run_in_loop _ _ _ _ _ _ HA HB Hcan Hrun) as [Hkept _].
  destruct (Hkept path) as (_ & Hsome & Hisdir).
  destruct (decide (path = monthly_dir)) as [->|Hne].
  - assert (fs w !! monthly_dir = Some Dir) as ->
      by (apply Hisdir, lookup_insert_eq).
    split; eauto.
  - rewrite lookup_insert_ne in Hsome, Hisdir by done.
    split; [done|]. apply Hisdir.
Qed.

(** X3.  A run that raises has either left the world exactly as it was
    (every failure of loading, of parsing the dates and of making the
    directory), or it has got to the loop: then the directory is there
    and the error is that of a missing date of the box-plot table or that
    of a directory which sat, before the run, at a path to be written. *)
Theorem failed_run (files : gmap string node) (e : error) (w : World) :
  run parse_cell files = (Raise e, w) →
  w = initial files
  ∨ (fs w !! monthly_dir = Some Dir
     ∧ (e = ValueError "NaTType does not support strftime"
        ∨ ∃ path, output_path path ∧ e = IsADirectoryError path
                  ∧ files !! path = Some Dir)).
Proof.
  intros Hrun.
  destruct (run_before_loop _ _ _ _ Hrun)
    as [(e' & _ & ->)|(A & B & HA & HB & Hcan)]; [by left|right].
  destruct (run_in_loop _ _ _ _ _ _ HA HB Hcan Hrun) as [Hkept Hres].
  split.
  - destruct (Hkept monthly_dir) as (Heq & _ & _).
    rewrite Heq by apply monthly_dir_not_output. apply lookup_insert_eq.
  - destruct Hres as [?|[[= ->]|(path & Hout & [= ->] & Hdir)]];
      [done|by left|right].
    exists path. split_and!; [done..|].
    destruct (Hkept path) as (_ & _ & Hisdir).
    apply Hisdir in Hdir. rewrite lookup_insert_ne in Hdir; [done|].
    intros <-. by apply monthly_dir_not_output.
Qed.
End never.

(** ** Failures before the loop *)

Section early_failures.
Variable parse_cell : string → option Timestamp.

(** X4.  Both files are read before any date is parsed: when the
    box-plot file loads and the org file is not there, the run raises
    [FileNotFoundError] for the org file and leaves the world as it was,
    whatever the dates of the box-plot file are. *)
Theorem missing_org_file_first (files : gmap string node) (A0 : DataFrame) :
  (read_csv box_plot_stats_csv (initial files)).1 = Ok A0 →
  files !! org_daily_executions_csv = None →
  run parse_cell files
  = (Raise (FileNotFoundError org_daily_executions_csv), initial files).
Proof.
  intros HA0 Hnone. unfold run, script, initial in *.
  erewrite bind_run by (rewrite read_csv_state, HA0; done).
  erewrite bind_Raise; [done|].
  unfold read_csv. simpl. by rewrite Hnone.
Qed.

(** X5.  When both files load and the box-plot table has no column
    [execution_date], or its dates parse and the org table has none, the
    run raises [KeyError] for that name and leaves the world as it was:
    the directory is not made. *)
Theorem missing_date_column (files : gmap string node) (A0 B0 A : DataFrame) :
  (read_csv box_plot_stats_csv (initial files)).1 = Ok A0 →
  (read_csv org_daily_executions_csv (initial files)).1 = Ok B0 →
  column_index "execution_date" A0 = None
  ∨ (normalize parse_cell A0 = Ok A
     ∧ column_index "execution_date" B0 = None) →
  run parse_cell files = (Raise (KeyError "execution_date"), initial files).
Proof.
  intros HA0 HB0 Hcol. unfold run, script, initial in *.
  erewrite bind_run by (rewrite read_csv_state, HA0; done).
  erewrite bind_run by (rewrite read_csv_state, HB0; done).
  destruct Hcol as [HjA|[HA HjB]].
  - erewrite bind_Raise; [done|].
    unfold lift, normalize, getitem. by rewrite HjA.
  - erewrite bind_run by (unfold lift; rewrite HA; done).
    erewrite bind_Raise; [done|].
    unfold lift, normalize, getitem. by rewrite HjB.
Qed.

(** X6.  When both tables load and a regular file sits where the output
    directory is to be, the run raises [FileExistsError] for the
    directory and leaves the world as it was: [exist_ok] lets an existing
    directory pass, not a file. *)
Theorem monthly_dir_is_a_file (files : gmap string node) (A B : DataFrame)
    (c : csv) :
  table parse_cell box_plot_stats_csv files = Ok A →
  table parse_cell org_daily_executions_csv files = Ok B →
  files !! monthly_dir = Some (File c) →
  run parse_cell files = (Raise (FileExistsError monthly_dir), initial files).
Proof.
  intros HA HB Hfile.
  apply table_Ok in HA as (A0 & HA0 & HA).
  apply table_Ok in HB as (B0 & HB0 & HB).
  unfold run, script, initial.
  erewrite bind_run by (rewrite read_csv_state, HA0; done).
  erewrite bind_run by (rewrite read_csv_state, HB0; done).
  erewrite bind_run by (unfold lift; rewrite HA; done).
  erewrite bind_run by (unfold lift; rewrite HB; done).
  erewrite bind_Raise; [done|].
  unfold mkdir. simpl. by rewrite Hfile.
Qed.

End early_failures.

(** ** The loop: failures, reports and empty months *)

Section loop_properties.
Variable parse_cell : string → option Timestamp.

Lemma write_months_lookup_before (A B : DataFrame) (ps : list Z) (p : Z)
    (files : gmap string node) (path : string) :
  path = box_plot_path (strftime_Ym p)
  ∨ path = org_data_path (strftime_Ym p) →
  p ∉ ps →
  write_months A B ps (<[monthly_dir := Dir]> files) !! path = files !! path.
Proof.
  intros Hpath Hp. rewrite write_months_lookup_ne.
  - apply lookup_insert_ne. intros Heq. apply monthly_dir_not_output.
    rewrite Heq. destruct Hpath as [->| ->]; unfold output_path; eauto.
  - intros q Hq. assert (q ≠ p) as Hne by (intros ->; done).
    destruct Hpath as [->| ->]; split.
    + intros Heq%box_plot_path_inj%strftime_Ym_inj. done.
    + apply box_plot_path_org_data_path.
    + intros Heq. by apply symmetry, box_plot_path_org_data_path in Heq.
    + intros Heq%org_data_path_inj%strftime_Ym_inj. done.
Qed.

(** X8.  The months are written in ascending order and a failed write
    undoes nothing: when a directory sits at the [box_plot_] path of the
    period [p], the run raises [IsADirectoryError] for that path, having
    written and reported both files of every earlier period and nothing
    for [p] and the later ones. *)
Theorem write_failure_keeps_earlier_months (files : gmap string node)
    (A B : DataFrame) (ps1 ps2 : list Z) (p : Z) :
  table parse_cell box_plot_stats_csv files = Ok A →
  table parse_cell org_daily_executions_csv files = Ok B →
  can_mkdir files →
  sorted (unique (row_period A <$> rows A)) = Some <$> (ps1 ++ p :: ps2) →
  writable files ps1 →
  files !! box_plot_path (strftime_Ym p) = Some Dir →
  run parse_cell files =
    (Raise (IsADirectoryError (box_plot_path (strftime_Ym p))),
     {| fs := write_months A B ps1 (<[monthly_dir := Dir]> files);
        stdout := announced A :: progress_lines A B ps1 |}).
Proof.
  intros HA HB Hcan Hps Hw Hdir.
  pose proof (table_column_index _ _ _ _ HA) as HjA.
  pose proof (table_column_index _ _ _ _ HB) as HjB.
  assert (p ∉ ps1) as Hp by (intros Hin; by destruct (Hw p Hin)).
  rewrite (run_loop _ _ _ _ HA HB Hcan), Hps, fmap_app.
  erewrite bind_Raise; [done|].
  rewrite for_each_app.
  erewrite bind_run
    by (apply for_each_run; [done..|by apply writable_insert_monthly_dir]).
  rewrite fmap_cons. simpl. erewrite bind_Raise; [done|].
  rewrite split_month_Some by done. simpl.
  rewrite (write_months_lookup_before A B ps1 p) by auto. by rewrite Hdir.
Qed.

(** X9.  Nor is a half-written period cleaned up: when the directory
    sits at the [org_data_] path of the period [p] and the [box_plot_]
    path is free, the run raises for the [org_data_] path having written
    the [box_plot_] file of [p] without its companion, after both files
    of every earlier period. *)
Theorem write_failure_leaves_half_a_month (files : gmap string node)
    (A B : DataFrame) (ps1 ps2 : list Z) (p : Z) :
  table parse_cell box_plot_stats_csv files = Ok A →
  table parse_cell org_daily_executions_csv files = Ok B →
  can_mkdir files →
  sorted (unique (row_period A <$> rows A)) = Some <$> (ps1 ++ p :: ps2) →
  writable files ps1 →
  files !! box_plot_path (strftime_Ym p) ≠ Some Dir →
  files !! org_data_path (strftime_Ym p) = Some Dir →
  run parse_cell files =
    (Raise (IsADirectoryError (org_data_path (strftime_Ym p))),
     {| fs := <[box_plot_path (strftime_Ym p) :=
                  File (render_frame (month A p))]>
                (write_months A B ps1 (<[monthly_dir := Dir]> files));
        stdout := announced A :: progress_lines A B ps1 |}).
Proof.
  intros HA HB Hcan Hps Hw Hbox Hdir.
  pose proof (table_column_index _ _ _ _ HA) as HjA.
  pose proof (table_column_index _ _ _ _ HB) as HjB.
  assert (p ∉ ps1) as Hp by (intros Hin; by destruct (Hw p Hin)).
  rewrite (run_loop _ _ _ _ HA HB Hcan), Hps, fmap_app.
  erewrite bind_Raise; [done|].
  rewrite for_each_app.
  erewrite bind_run
    by (apply for_each_run; [done..|by apply writable_insert_monthly_dir]).
  rewrite fmap_cons. simpl. erewrite bind_Raise; [done|].
  rewrite split_month_Some by done. simpl.
  rewrite !(write_months_lookup_before A B ps1 p) by auto. rewrite Hdir.
  by destruct (files !! box_plot_path (strftime_Ym p)) as [[c|]|].
Qed.

(** X10.  In a run that ends well the output accounts for the files:
    the first line announces as many months as the loop has periods, and
    the line of each period, in the order of the loop, reports the
    numbers of records that the two files of the period hold. *)
Theorem output_accounts_for_files (files : gmap string node) (w : World)
    (A B : DataFrame) (ps : list Z) :
  run parse_cell files = (Ok (), w) →
  table parse_cell box_plot_stats_csv files = Ok A →
  table parse_cell org_daily_executions_csv files = Ok B →
  sorted (unique (row_period A <$> rows A)) = Some <$> ps →
  stdout w =
    ["Splitting data into " +:+ pretty (length ps) +:+ " months..."]
    ++ (reported (fs w) <$> ps) ++ ["Done!"].
Proof.
  intros Hrun HA HB Hps.
  destruct (run_Ok_fs _ _ _ _ _ _ Hrun HA HB Hps) as (-> & _ & _).
  simpl. unfold printed.
  assert (length (unique (row_period A <$> rows A)) = length ps) as ->.
  { rewrite <-(sorted_Permutation (unique _)), Hps. apply length_fmap. }
  do 2 f_equal. unfold progress_lines. apply list_fmap_ext.
  intros i p Hp%list_elem_of_lookup_2. unfold reported.
  rewrite write_months_lookup_box, write_months_lookup_org by auto.
  unfold progress_line. simpl. by rewrite !length_fmap.
Qed.


(** X12.  A period of the box-plot table gets its org file even when
    the org table has no row in it: in a run that ends well the file
    [org_data_] of such a period holds the header of the org table and
    no record. *)
Theorem org_file_header_only (files : gmap string node) (w : World)
    (A B : DataFrame) (a : list value) (p : Z) :
  run parse_cell files = (Ok (), w) →
  table parse_cell box_plot_stats_csv files = Ok A →
  table parse_cell org_daily_executions_csv files = Ok B →
  a ∈ rows A → row_period A a = Some p →
  (∀ r, r ∈ rows B → row_period B r ≠ Some p) →
  fs w !! org_data_path (strftime_Ym p)
  = Some (File {| csv_header := columns B; csv_records := [] |}).
Proof.
  intros Hrun HA HB Ha Hp Hnone.
  destruct (run_Ok_inv _ _ _ Hrun)
    as (A' & B' & ps & HA' & HB' & _ & Hps & _).
  rewrite HA in HA'. rewrite HB in HB'.
  injection HA' as <-. injection HB' as <-.
  destruct (run_Ok_fs _ _ _ _ _ _ Hrun HA HB Hps) as (-> & _ & _).
  apply sorted_unique_Some in Hps as (_ & Hin & _). simpl.
  rewrite write_months_lookup_org
    by (left; apply Hin, list_elem_of_fmap; eauto).
  assert (rows (month B p) = []) as Hrows.
  { apply elem_of_nil_inv. intros r [Hrp Hr]%elem_of_month.
    by apply (Hnone r). }
  unfold render_frame. by rewrite Hrows.
Qed.

(** X13.  A box-plot row without a date makes the run fail, and only
    once the directory is made: when both tables load and the directory
    is there or can be made, the run raises, and the directory is there
    after it. *)
Theorem missing_date_fails_after_mkdir (files : gmap string node)
    (A B : DataFrame) (r : list value) :
  table parse_cell box_plot_stats_csv files = Ok A →
  table parse_cell org_daily_executions_csv files = Ok B →
  can_mkdir files →
  r ∈ rows A → row_period A r = None →
  ∃ e w, run parse_cell files = (Raise e, w)
         ∧ fs w !! monthly_dir = Some Dir.
Proof.
  intros HA HB Hcan Hr Hnone.
  destruct (run parse_cell files) as [[[]|e] w] eqn:Hrun.
  - destruct (run_Ok_inv _ _ _ Hrun)
      as (A' & B' & ps & HA' & _ & _ & Hps & _).
    rewrite HA in HA'. injection HA' as <-.
    apply sorted_unique_Some in Hps as (_ & _ & []).
    apply list_elem_of_fmap. eauto.
  - exists e, w. split; [done|].
    destruct (run_in_loop _ _ _ _ _ _ HA HB Hcan Hrun) as [Hkept _].
    destruct (Hkept monthly_dir) as (Heq & _ & _).
    rewrite Heq by apply monthly_dir_not_output. apply lookup_insert_eq.
Qed.
End loop_properties.

(** ** Months and their names *)


(** X15.  The ascending order of the loop is the order of the calendar:
    one period is before another exactly when its year is earlier, or
    the year is the same and its month is earlier. *)
Theorem period_order_is_calendar_order (t t' : Timestamp) :
  1 ≤ ts_month t ≤ 12 → 1 ≤ ts_month t' ≤ 12 →
  period_ltb (Some (to_period_M t)) (Some (to_period_M t')) = true
  ↔ ts_year t < ts_year t'
    ∨ (ts_year t = ts_year t' ∧ ts_month t < ts_month t').
Proof.
  intros Hm Hm'. simpl. rewrite bool_decide_eq_true. unfold to_period_M.
  lia.
Qed.

(** ** The console of every run *)

Section console.
Variables A B : DataFrame.
Hypothesis HA : is_Some (column_index "execution_date" A).
Hypothesis HB : is_Some (column_index "execution_date" B).

(** One turn of the loop either writes both files and prints its line,
    or raises without a line, having written nothing or the first file
    alone. *)
Lemma split_month_outcome (period : option Z) (w w' : World)
    (res : result ()) :
  split_month A B period w = (res, w') →
  (∃ p, period = Some p ∧ res = Ok ()
        ∧ w' = {| fs := write_month A B (fs w) p;
                  stdout := stdout w
                    ++ [progress_line (strftime_Ym p)
                          (month A p) (month B p)] |})
  ∨ (∃ e, res = Raise e ∧ stdout w' = stdout w
          ∧ (fs w' = fs w
             ∨ ∃ p, period = Some p
                    ∧ fs w' = <[box_plot_path (strftime_Ym p) :=
                                  File (render_frame (month A p))]> (fs w))).
Proof.
  destruct period as [p|].
  - rewrite split_month_Some by done.
    destruct (fs w !! box_plot_path (strftime_Ym p)) as [[cb|]|];
      [|intros [= <- <-]; right; eauto| ];
      (destruct (fs w !! org_data_path (strftime_Ym p)) as [[co|]|];
       intros [= <- <-]; [left; eauto|right|left; eauto]);
      eexists; split_and!; [done..|right; eauto| | |]; eauto.
  - intros [= <- <-]. right. eauto.
Qed.

(** The loop prints the lines of the periods it has gone through, and
    has written their files; a loop that raises stops at the first period
    it cannot go through. *)
Lemma for_each_outcome (l : list (option Z)) (w w' : World)
    (res : result ()) :
  for_each l (split_month A B) w = (res, w') →
  ∃ ps1 rest,
    l = (Some <$> ps1) ++ rest
    ∧ stdout w' = stdout w ++ progress_lines A B ps1
    ∧ ((res = Ok () ∧ rest = []) ∨ (∃ e, res = Raise e ∧ rest ≠ []))
    ∧ (fs w' = write_months A B ps1 (fs w)
       ∨ ∃ p, head rest = Some (Some p)
              ∧ fs w' = <[box_plot_path (strftime_Ym p) :=
                            File (render_frame (month A p))]>
                          (write_months A B ps1 (fs w))).
Proof.
  revert w. induction l as [|period l IH]; intros w; simpl.
  - intros [= <- <-]. exists [], []. simpl.
    rewrite (right_id_L [] (++)). split_and!; [done..|left|left]; done.
  - intros [(e & Hbody & ->)|([] & w1 & Hbody & Hrest)]%bind_cases.
    + apply split_month_outcome in Hbody
        as [(p & _ & [=] & _)|(e' & _ & Hout & Hfs)].
      exists [], (period :: l). simpl. rewrite (right_id_L [] (++)).
      split_and!; [done..|right; eauto|].
      destruct Hfs as [?|(p & -> & ?)]; [by left|right; eauto].
    + apply split_month_outcome in Hbody
        as [(p & -> & _ & ->)|(e' & [=] & _)].
      destruct (IH _ Hrest) as (ps1 & rest & -> & Hout & Hres & Hfs).
      exists (p :: ps1), rest. simpl in *.
      rewrite <-(assoc_L (++)) in Hout. done.
Qed.
End console.

Section console_of_run.
Variable parse_cell : string → option Timestamp.

(** The outcome of a run that gets to the loop, with what it has
    printed. *)
Lemma run_outcome (files : gmap string node) (A B : DataFrame)
    (res : result ()) (w : World) :
  table parse_cell box_plot_stats_csv files = Ok A →
  table parse_cell org_daily_executions_csv files = Ok B →
  can_mkdir files →
  run parse_cell files = (res, w) →
  ∃ ps1 rest,
    sorted (unique (row_period A <$> rows A)) = (Some <$> ps1) ++ rest
    ∧ ((res = Ok () ∧ rest = []
        ∧ stdout w = announced A :: progress_lines A B ps1 ++ ["Done!"])
       ∨ (∃ e, res = Raise e ∧ rest ≠ []
               ∧ stdout w = announced A :: progress_lines A B ps1))
    ∧ (fs w = write_months A B ps1 (<[monthly_dir := Dir]> files)
       ∨ ∃ p, head rest = Some (Some p)
              ∧ fs w = <[box_plot_path (strftime_Ym p) :=
                           File (render_frame (month A p))]>
                         (write_months A B ps1
                            (<[monthly_dir := Dir]> files))).
Proof.
  intros HA HB Hcan Hrun. rewrite (run_loop _ _ _ _ HA HB Hcan) in Hrun.
  pose proof (table_column_index _ _ _ _ HA) as HjA.
  pose proof (table_column_index _ _ _ _ HB) as HjB.
  apply bind_cases in Hrun as [(e & Hloop & ->)|([] & w1 & Hloop & Hdone)];
    destruct (for_each_outcome A B HjA HjB _ _ _ _ Hloop)
      as (ps1 & rest & Hl & Hout & Hres & Hfs);
    exists ps1, rest; (split; [done|]).
  - destruct Hres as [[[=] _]|(e' & _ & Hrest)].
    split; [right; eauto|done].
  - destruct Hres as [[_ ->]|(e' & [=] & _)].
    unfold print in Hdone. injection Hdone as <- <-. simpl.
    rewrite Hout. split; [left; done|done].
Qed.


(** X17.  The last line is a receipt: whatever the files, ["Done!"] is
    on the console after a run exactly when the run has ended well. *)
Theorem done_iff_ended_well (files : gmap string node) :
  "Done!" ∈ stdout (run parse_cell files).2
  ↔ (run parse_cell files).1 = Ok ().
Proof.
  destruct (run parse_cell files) as [res w] eqn:Hrun. simpl.
  destruct (run_before_loop _ _ _ _ Hrun)
    as [(e & -> & ->)|(A & B & HA & HB & Hcan)].
  { simpl. split; [by intros ?%elem_of_nil|done]. }
  destruct (run_outcome _ _ _ _ _ HA HB Hcan Hrun)
    as (ps1 & rest & _ & [(-> & _ & ->)|(e & -> & _ & ->)] & _).
  - split; [done|]. intros _.
    apply elem_of_cons. right. apply elem_of_app. right. left.
  - split; [|done]. intros [Hin|Hin]%elem_of_cons.
    + unfold announced in Hin. simpl in Hin. discriminate.
    + apply list_elem_of_fmap in Hin as (p & Hin & _).
      unfold progress_line in Hin. simpl in Hin. discriminate.
Qed.
End console_of_run.

(** ** Reading the files of the months again *)

Section reload.
Variable parse_cell : string → option Timestamp.

Lemma to_datetime_at_Forall2 (i : nat) (arg ds : list value) :
  Forall2 (λ v d, convert parse_cell v = Some d) arg ds →
  to_datetime_at parse_cell i arg = Ok ds.
Proof.
  intros H. revert i. induction H as [|v d arg ds Hv _ IH]; intros i; simpl.
  - done.
  - by rewrite Hv, IH.
Qed.






End reload.

(** * The further properties on given inputs *)

(** ** The inputs *)

Lemma squatted_box_run :
  run ISO8601.parse Mishaps.squatted_box
  = (Raise (IsADirectoryError "public/monthly/box_plot_2024-02.csv"),
     Mishaps.squatted_box_world).
Proof. vm_compute. reflexivity. Qed.


Lemma squatted_box_box_plot_df :
  table ISO8601.parse box_plot_stats_csv Mishaps.squatted_box
  = Ok Scenario.box_plot_df.
Proof. vm_compute. reflexivity. Qed.

Lemma squatted_box_org_data_df :
  table ISO8601.parse org_daily_executions_csv Mishaps.squatted_box
  = Ok Scenario.org_data_df.
Proof. vm_compute. reflexivity. Qed.

Lemma squatted_org_box_plot_df :
  table ISO8601.parse box_plot_stats_csv Mishaps.squatted_org
  = Ok Scenario.box_plot_df.
Proof. vm_compute. reflexivity. Qed.

Lemma squatted_org_org_data_df :
  table ISO8601.parse org_daily_executions_csv Mishaps.squatted_org
  = Ok Scenario.org_data_df.
Proof. vm_compute. reflexivity. Qed.

Lemma squatted_months :
  sorted (unique (row_period Scenario.box_plot_df
                    <$> rows Scenario.box_plot_df))
  = Some <$> ([648] ++ 649 :: []).
Proof. vm_compute. reflexivity. Qed.

Lemma squatted_box_writable : writable Mishaps.squatted_box [648].
Proof.
  intros p Hp.
  apply elem_of_cons in Hp as [->|Hp]; [split; vm_compute; congruence|].
  by apply elem_of_nil in Hp.
Qed.

Lemma squatted_org_writable : writable Mishaps.squatted_org [648].
Proof.
  intros p Hp.
  apply elem_of_cons in Hp as [->|Hp]; [split; vm_compute; congruence|].
  by apply elem_of_nil in Hp.
Qed.

Lemma scenario_no_org_row_in_february (r : list value) :
  r ∈ rows Scenario.org_data_df →
  row_period Scenario.org_data_df r ≠ Some 649.
Proof.
  unfold Scenario.org_data_df. simpl. intros Hr.
  apply elem_of_cons in Hr as [->|Hr]; [vm_compute; congruence|].
  apply elem_of_cons in Hr as [->|Hr]; [vm_compute; congruence|].
  by apply elem_of_nil in Hr.
Qed.



(** ** The properties at these inputs *)

Lemma run_leaves_other_paths_witness :
  box_plot_stats_csv ≠ monthly_dir
  ∧ ¬ output_path box_plot_stats_csv
  ∧ fs (run ISO8601.parse Mishaps.squatted_box).2 !! box_plot_stats_csv
    = Mishaps.squatted_box !! box_plot_stats_csv.
Proof.
  assert (box_plot_stats_csv ≠ monthly_dir) as Hne
    by (vm_compute; congruence).
  exact (conj Hne (conj box_plot_stats_csv_not_output
    (run_leaves_other_paths ISO8601.parse Mishaps.squatted_box
       box_plot_stats_csv Hne box_plot_stats_csv_not_output))).
Defined.

Lemma failed_run_witness :
  run ISO8601.parse Mishaps.squatted_box
  = (Raise (IsADirectoryError "public/monthly/box_plot_2024-02.csv"),
     Mishaps.squatted_box_world)
  ∧ (Mishaps.squatted_box_world = initial Mishaps.squatted_box
     ∨ (fs Mishaps.squatted_box_world !! monthly_dir = Some Dir
        ∧ (IsADirectoryError "public/monthly/box_plot_2024-02.csv"
           = ValueError "NaTType does not support strftime"
           ∨ ∃ path, output_path path
               ∧ IsADirectoryError "public/monthly/box_plot_2024-02.csv"
                 = IsADirectoryError path
               ∧ Mishaps.squatted_box !! path = Some Dir))).
Proof.
  exact (conj squatted_box_run
    (failed_run ISO8601.parse _ _ _ squatted_box_run)).
Defined.

Lemma missing_org_file_first_witness :
  (read_csv box_plot_stats_csv (initial Mishaps.no_org_file)).1
    = Ok BadDate.box_plot_df
  ∧ Mishaps.no_org_file !! org_daily_executions_csv = None
  ∧ run ISO8601.parse Mishaps.no_org_file
    = (Raise (FileNotFoundError org_daily_executions_csv),
       initial Mishaps.no_org_file).
Proof.
  assert ((read_csv box_plot_stats_csv (initial Mishaps.no_org_file)).1
          = Ok BadDate.box_plot_df) as HA0 by (vm_compute; reflexivity).
  assert (Mishaps.no_org_file !! org_daily_executions_csv = None) as Hnone
    by (vm_compute; reflexivity).
  exact (conj HA0 (conj Hnone
    (missing_org_file_first ISO8601.parse _ _ HA0 Hnone))).
Defined.

Lemma missing_date_column_witness :
  (read_csv box_plot_stats_csv (initial Mishaps.no_date_column)).1
    = Ok Mishaps.undated_df
  ∧ (read_csv org_daily_executions_csv (initial Mishaps.no_date_column)).1
    = Ok BadDate.org_data_df
  ∧ (column_index "execution_date" Mishaps.undated_df = None
     ∨ (normalize ISO8601.parse Mishaps.undated_df = Ok Mishaps.undated_df
        ∧ column_index "execution_date" BadDate.org_data_df = None))
  ∧ run ISO8601.parse Mishaps.no_date_column
    = (Raise (KeyError "execution_date"), initial Mishaps.no_date_column).
Proof.
  assert ((read_csv box_plot_stats_csv (initial Mishaps.no_date_column)).1
          = Ok Mishaps.undated_df) as HA0 by (vm_compute; reflexivity).
  assert ((read_csv org_daily_executions_csv
             (initial Mishaps.no_date_column)).1
          = Ok BadDate.org_data_df) as HB0 by (vm_compute; reflexivity).
  assert (column_index "execution_date" Mishaps.undated_df = None
          ∨ (normalize ISO8601.parse Mishaps.undated_df
             = Ok Mishaps.undated_df
             ∧ column_index "execution_date" BadDate.org_data_df = None))
    as Hcol by (left; vm_compute; reflexivity).
  exact (conj HA0 (conj HB0 (conj Hcol
    (missing_date_column ISO8601.parse _ _ _ _ HA0 HB0 Hcol)))).
Defined.

Lemma monthly_dir_is_a_file_witness :
  table ISO8601.parse box_plot_stats_csv Mishaps.monthly_is_file
    = Ok Scenario.box_plot_df
  ∧ table ISO8601.parse org_daily_executions_csv Mishaps.monthly_is_file
    = Ok Scenario.org_data_df
  ∧ Mishaps.monthly_is_file !! monthly_dir
    = Some (File {| csv_header := []; csv_records := [] |})
  ∧ run ISO8601.parse Mishaps.monthly_is_file
    = (Raise (FileExistsError monthly_dir), initial Mishaps.monthly_is_file).
Proof.
  assert (table ISO8601.parse box_plot_stats_csv Mishaps.monthly_is_file
          = Ok Scenario.box_plot_df) as HA by (vm_compute; reflexivity).
  assert (table ISO8601.parse org_daily_executions_csv
            Mishaps.monthly_is_file
          = Ok Scenario.org_data_df) as HB by (vm_compute; reflexivity).
  assert (Mishaps.monthly_is_file !! monthly_dir
          = Some (File {| csv_header := []; csv_records := [] |})) as Hfile
    by (vm_compute; reflexivity).
  exact (conj HA (conj HB (conj Hfile
    (monthly_dir_is_a_file ISO8601.parse _ _ _ _ HA HB Hfile)))).
Defined.


Lemma write_failure_keeps_earlier_months_witness :
  table ISO8601.parse box_plot_stats_csv Mishaps.squatted_box
    = Ok Scenario.box_plot_df
  ∧ table ISO8601.parse org_daily_executions_csv Mishaps.squatted_box
    = Ok Scenario.org_data_df
  ∧ can_mkdir Mishaps.squatted_box
  ∧ sorted (unique (row_period Scenario.box_plot_df
                      <$> rows Scenario.box_plot_df))
    = Some <$> ([648] ++ 649 :: [])
  ∧ writable Mishaps.squatted_box [648]
  ∧ Mishaps.squatted_box !! box_plot_path (strftime_Ym 649) = Some Dir
  ∧ run ISO8601.parse Mishaps.squatted_box =
      (Raise (IsADirectoryError (box_plot_path (strftime_Ym 649))),
       {| fs := write_months Scenario.box_plot_df Scenario.org_data_df [648]
                  (<[monthly_dir := Dir]> Mishaps.squatted_box);
          stdout := announced Scenario.box_plot_df
                    :: progress_lines Scenario.box_plot_df
                         Scenario.org_data_df [648] |}).
Proof.
  assert (can_mkdir Mishaps.squatted_box) as Hcan
    by (left; vm_compute; reflexivity).
  assert (Mishaps.squatted_box !! box_plot_path (strftime_Ym 649)
          = Some Dir) as Hdir by (vm_compute; reflexivity).
  exact (conj squatted_box_box_plot_df (conj squatted_box_org_data_df
    (conj Hcan (conj squatted_months (conj squatted_box_writable (conj Hdir
      (write_failure_keeps_earlier_months ISO8601.parse _ _ _ _ _ _
         squatted_box_box_plot_df squatted_box_org_data_df Hcan
         squatted_months squatted_box_writable Hdir))))))).
Defined.

Lemma write_failure_leaves_half_a_month_witness :
  table ISO8601.parse box_plot_stats_csv Mishaps.squatted_org
    = Ok Scenario.box_plot_df
  ∧ table ISO8601.parse org_daily_executions_csv Mishaps.squatted_org
    = Ok Scenario.org_data_df
  ∧ can_mkdir Mishaps.squatted_org
  ∧ sorted (unique (row_period Scenario.box_plot_df
                      <$> rows Scenario.box_plot_df))
    = Some <$> ([648] ++ 649 :: [])
  ∧ writable Mishaps.squatted_org [648]
  ∧ Mishaps.squatted_org !! box_plot_path (strftime_Ym 649) ≠ Some Dir
  ∧ Mishaps.squatted_org !! org_data_path (strftime_Ym 649) = Some Dir
  ∧ run ISO8601.parse Mishaps.squatted_org =
      (Raise (IsADirectoryError (org_data_path (strftime_Ym 649))),
       {| fs := <[box_plot_path (strftime_Ym 649) :=
                    File (render_frame (month Scenario.box_plot_df 649))]>
                  (write_months Scenario.box_plot_df Scenario.org_data_df
                     [648] (<[monthly_dir := Dir]> Mishaps.squatted_org));
          stdout := announced Scenario.box_plot_df
                    :: progress_lines Scenario.box_plot_df
                         Scenario.org_data_df [648] |}).
Proof.
  assert (can_mkdir Mishaps.squatted_org) as Hcan
    by (left; vm_compute; reflexivity).
  assert (Mishaps.squatted_org !! box_plot_path (strftime_Ym 649)
          ≠ Some Dir) as Hbox by (vm_compute; congruence).
  assert (Mishaps.squatted_org !! org_data_path (strftime_Ym 649)
          = Some Dir) as Hdir by (vm_compute; reflexivity).
  exact (conj squatted_org_box_plot_df (conj squatted_org_org_data_df
    (conj Hcan (conj squatted_months (conj squatted_org_writable
      (conj Hbox (conj Hdir
        (write_failure_leaves_half_a_month ISO8601.parse _ _ _ _ _ _
           squatted_org_box_plot_df squatted_org_org_data_df Hcan
           squatted_months squatted_org_writable Hbox Hdir)))))))).
Defined.

Lemma output_accounts_for_files_witness :
  run ISO8601.parse Scenario.files = (Ok (), Scenario.world)
  ∧ table ISO8601.parse box_plot_stats_csv Scenario.files
    = Ok Scenario.box_plot_df
  ∧ table ISO8601.parse org_daily_executions_csv Scenario.files
    = Ok Scenario.org_data_df
  ∧ sorted (unique (row_period Scenario.box_plot_df
                      <$> rows Scenario.box_plot_df))
    = Some <$> Scenario.months
  ∧ stdout Scenario.world =
      ["Splitting data into " +:+ pretty (length Scenario.months)
       +:+ " months..."]
      ++ (reported (fs Scenario.world) <$> Scenario.months) ++ ["Done!"].
Proof.
  exact (conj scenario_run (conj scenario_box_plot_df
    (conj scenario_org_data_df (conj scenario_months
      (output_accounts_for_files ISO8601.parse _ _ _ _ _ scenario_run
         scenario_box_plot_df scenario_org_data_df scenario_months))))).
Defined.

Lemma org_file_header_only_witness :
  run ISO8601.parse Scenario.files = (Ok (), Scenario.world)
  ∧ table ISO8601.parse box_plot_stats_csv Scenario.files
    = Ok Scenario.box_plot_df
  ∧ table ISO8601.parse org_daily_executions_csv Scenario.files
    = Ok Scenario.org_data_df
  ∧ [Scenario.date 2024 2 10; Str "11"] ∈ rows Scenario.box_plot_df
  ∧ row_period Scenario.box_plot_df [Scenario.date 2024 2 10; Str "11"]
    = Some 649
  ∧ (∀ r, r ∈ rows Scenario.org_data_df →
          row_period Scenario.org_data_df r ≠ Some 649)
  ∧ fs Scenario.world !! org_data_path (strftime_Ym 649)
    = Some (File {| csv_header := columns Scenario.org_data_df;
                    csv_records := [] |}).
Proof.
  assert ([Scenario.date 2024 2 10; Str "11"] ∈ rows Scenario.box_plot_df)
    as Ha by (vm_compute; do 2 apply list_elem_of_further;
              apply list_elem_of_here).
  assert (row_period Scenario.box_plot_df
            [Scenario.date 2024 2 10; Str "11"] = Some 649) as Hp
    by (vm_compute; reflexivity).
  exact (conj scenario_run (conj scenario_box_plot_df
    (conj scenario_org_data_df (conj Ha (conj Hp
      (conj scenario_no_org_row_in_february
        (org_file_header_only ISO8601.parse _ _ _ _ _ _ scenario_run
           scenario_box_plot_df scenario_org_data_df Ha Hp
           scenario_no_org_row_in_february))))))).
Defined.

Lemma missing_date_fails_after_mkdir_witness :
  table ISO8601.parse box_plot_stats_csv Mishaps.missing_date
    = Ok Mishaps.dateless_df
  ∧ table ISO8601.parse org_daily_executions_csv Mishaps.missing_date
    = Ok Scenario.org_data_df
  ∧ can_mkdir Mishaps.missing_date
  ∧ [NaT; Str "12"] ∈ rows Mishaps.dateless_df
  ∧ row_period Mishaps.dateless_df [NaT; Str "12"] = None
  ∧ ∃ e w, run ISO8601.parse Mishaps.missing_date = (Raise e, w)
           ∧ fs w !! monthly_dir = Some Dir.
Proof.
  assert (table ISO8601.parse box_plot_stats_csv Mishaps.missing_date
          = Ok Mishaps.dateless_df) as HA by (vm_compute; reflexivity).
  assert (table ISO8601.parse org_daily_executions_csv Mishaps.missing_date
          = Ok Scenario.org_data_df) as HB by (vm_compute; reflexivity).
  assert (can_mkdir Mishaps.missing_date) as Hcan
    by (right; split; vm_compute; reflexivity).
  assert ([NaT; Str "12"] ∈ rows Mishaps.dateless_df) as Hr
    by (vm_compute; apply list_elem_of_further, list_elem_of_here).
  assert (row_period Mishaps.dateless_df [NaT; Str "12"] = None) as Hnone
    by (vm_compute; reflexivity).
  exact (conj HA (conj HB (conj Hcan (conj Hr (conj Hnone
    (missing_date_fails_after_mkdir ISO8601.parse _ _ _ _ HA HB Hcan
       Hr Hnone)))))).
Defined.


Lemma period_order_is_calendar_order_witness :
  1 ≤ ts_month (mkTimestamp 2023 12 31 0 0 0 0) ≤ 12
  ∧ 1 ≤ ts_month (mkTimestamp 2024 1 1 0 0 0 0) ≤ 12
  ∧ (period_ltb (Some (to_period_M (mkTimestamp 2023 12 31 0 0 0 0)))
       (Some (to_period_M (mkTimestamp 2024 1 1 0 0 0 0))) = true
     ↔ ts_year (mkTimestamp 2023 12 31 0 0 0 0)
       < ts_year (mkTimestamp 2024 1 1 0 0 0 0)
       ∨ (ts_year (mkTimestamp 2023 12 31 0 0 0 0)
          = ts_year (mkTimestamp 2024 1 1 0 0 0 0)
          ∧ ts_month (mkTimestamp 2023 12 31 0 0 0 0)
            < ts_month (mkTimestamp 2024 1 1 0 0 0 0))).
Proof.
  assert (1 ≤ ts_month (mkTimestamp 2023 12 31 0 0 0 0) ≤ 12) as Hm
    by (simpl; lia).
  assert (1 ≤ ts_month (mkTimestamp 2024 1 1 0 0 0 0) ≤ 12) as Hm'
    by (simpl; lia).
  exact (conj Hm (conj Hm' (period_order_is_calendar_order _ _ Hm Hm'))).
Defined.


